(** * BERT backbone (keras_nlp/models/bert/bert_models.py) and the wheel
      packaging script (pip_build.py): a shallow embedding.

    The Python sources are embedded as follows.

    - Python values that flow through keyword arguments and configuration
      dictionaries are the constructors of [PyVal]; dictionaries keyed by
      strings are [gmap string _].
    - Float literals ([0.1], [1e-12], [0.02]) are kept as the exact decimal
      the source writes, in [Q].
    - Raised exceptions are the [Err] side of [Result]; the classes are the
      ones the interpreter raises ([KeyError], [TypeError], [ValueError], ...).
    - [Bert.__init__] is graph assembly with the Keras functional API: it
      creates layers and applies them to symbolic tensors.  Layers are the
      constructors of [Layer] with the keyword arguments the source passes,
      symbolic tensors are the terms of [KTensor].
    - A call of the model is the evaluation of that term in a [Backend];
      the shape backend computes the static shapes of the outputs. *)

From Stdlib Require Import ZArith QArith List.
From stdpp Require Import base tactics option list strings gmap pretty.

Local Open Scope string_scope.
Local Open Scope list_scope.
Local Open Scope Z_scope.

(** ** Python values and exceptions *)

Module Py.

Inductive PyVal :=
| VNone
| VBool (b : bool)
| VInt (n : Z)
| VFloat (x : Q)
| VStr (s : string).

Inductive Exn :=
| KeyError (key : string)
| TypeError (msg : string)
| ValueError (msg : string)
| IndexError (msg : string)
| OSError (msg : string).

Inductive Result (A : Type) :=
| Ok (a : A)
| Err (e : Exn).
Global Arguments Ok {A} a.
Global Arguments Err {A} e.

Definition bind {A B} (r : Result A) (k : A → Result B) : Result B :=
  match r with
  | Ok a => k a
  | Err e => Err e
  end.

Definition is_ok {A} (r : Result A) : bool :=
  match r with Ok _ => true | Err _ => false end.

(** [d[k]] on a dictionary with string keys. *)
Definition getitem {V} (d : gmap string V) (k : string) : Result V :=
  match d !! k with
  | Some v => Ok v
  | None => Err (KeyError k)
  end.

(** [type(v).__name__], as it appears in the interpreter's messages. *)
Definition type_name (v : PyVal) : string :=
  match v with
  | VNone => "NoneType"
  | VBool _ => "bool"
  | VInt _ => "int"
  | VFloat _ => "float"
  | VStr _ => "str"
  end.

(** [range(v)]: [v] must be an integer ([bool] is a subclass of [int]);
    the range is empty when [v <= 0]. *)
Definition range (v : PyVal) : Result (list Z) :=
  match v with
  | VInt n => Ok (Z.of_nat <$> seq 0 (Z.to_nat n))
  | VBool b => Ok (if b then [0] else [])
  | _ => Err (TypeError ("'" +:+ type_name v +:+
                         "' object cannot be interpreted as an integer"))
  end.

(** [f"{i}"] for an integer. *)
Definition format_int (i : Z) : string := pretty i.

(** [needle in haystack] on strings. *)
Fixpoint str_contains (needle haystack : string) : bool :=
  String.prefix needle haystack ||
  match haystack with
  | EmptyString => false
  | String _ rest => str_contains needle rest
  end.

(** [s.startswith(p)] *)
Definition startswith (s p : string) : bool := String.prefix p s.

(** [os.path.join(a, b)] of [posixpath]. *)
Definition endswith_sep (s : string) : bool :=
  match String.rev s with
  | String c _ => String.eqb (String c "") "/"
  | EmptyString => false
  end.

Definition os_path_join (a b : string) : string :=
  if startswith b "/" then b
  else if (String.length a =? 0)%nat || endswith_sep a then a +:+ b
  else a +:+ "/" +:+ b.

End Py.
Export Py.

Global Instance Result_ret : MRet Result := @Ok.
Global Instance Result_bind : MBind Result := λ A B k r, Py.bind r k.

(** ** Keyword arguments: a call that unpacks a dictionary of keywords

    A signature lists the parameter names in order, each with its default
    if it has one.  The interpreter first rejects a keyword that names no
    parameter, then a parameter that got no value and has no default. *)

Module Call.

Definition Signature := list (string * option PyVal).

Definition param_names (sig : Signature) : list string := fst <$> sig.

(** The first keyword that names no parameter, if there is one. *)
Definition unexpected (sig : Signature) (kwargs : gmap string PyVal)
  : option string :=
  List.find (λ k, negb (bool_decide (k ∈ param_names sig)))
            (elements (dom kwargs)).

Fixpoint fill (sig : Signature) (kwargs : gmap string PyVal)
  : Result (list PyVal) :=
  match sig with
  | [] => Ok []
  | (p, dflt) :: sig' =>
      match kwargs !! p, dflt with
      | Some v, _ | None, Some v => vs ← fill sig' kwargs; Ok (v :: vs)
      | None, None =>
          Err (TypeError ("__init__() missing 1 required positional argument: '"
                          +:+ p +:+ "'"))
      end
  end.

Definition bind_keywords (sig : Signature) (kwargs : gmap string PyVal)
  : Result (list PyVal) :=
  match unexpected sig kwargs with
  | Some k =>
      Err (TypeError ("__init__() got an unexpected keyword argument '"
                      +:+ k +:+ "'"))
  | None => fill sig kwargs
  end.

End Call.

(** ** Keras layers and symbolic tensors *)

Module Keras.

Inductive Initializer :=
| TruncatedNormal (stddev : Q).

(** The [activation=] argument of a layer: a registered name, or the
    lambda [lambda x: keras.activations.gelu(x, approximate=...)]. *)
Inductive Activation :=
| ActivationName (s : string)
| GeluLambda (approximate : bool).

(** Layer constructors with the keyword arguments [Bert.__init__] passes. *)
Inductive Layer :=
| Embedding (input_dim output_dim : PyVal)
            (embeddings_initializer : Initializer) (name : string)
| PositionEmbedding (initializer : Initializer) (sequence_length : PyVal)
                    (name : string)
| Add
| LayerNormalization (name : string) (axis : Z) (epsilon : Q) (dtype : string)
| Dropout (rate : PyVal) (name : string)
| TransformerEncoder (num_heads intermediate_dim : PyVal)
                     (activation : Activation) (dropout : PyVal)
                     (kernel_initializer : Initializer) (name : string)
| Dense (units : PyVal) (kernel_initializer : Initializer)
        (activation : Activation) (name : string).

(** Symbolic tensors of the functional API. *)
Inductive KTensor :=
| Input (shape : list (option Z)) (dtype : string) (name : string)
    (* keras.Input(shape=..., dtype=..., name=...) *)
| Apply (l : Layer) (x : KTensor)
    (* l(x) *)
| ApplyTuple (l : Layer) (x y z : KTensor)
    (* l((x, y, z)) *)
| ApplyMasked (l : Layer) (x padding_mask : KTensor)
    (* l(x, padding_mask=padding_mask) *)
| Subscript (x : KTensor) (index : Z).
    (* x[:, index, :] *)

End Keras.
Export Keras.

(** ** Calling a functional model

    A backend gives the tensors their meaning: [feed] checks a fed value
    against the [keras.Input] it is fed to, [apply_layer] runs a layer on
    its positional inputs and its optional [padding_mask] ([training] is
    the mode the model is called in), [subscript] is [x[:, index, :]]. *)

Module Functional.

Class Backend (T : Type) := {
  feed : list (option Z) → string → T → Result T;
  apply_layer : Layer → bool → list T → option T → Result T;
  subscript : T → Z → Result T;
}.

Section Eval.
Context {T : Type} `{Backend T}.
Variable training : bool.
Variable feeds : gmap string T.

Fixpoint eval (t : KTensor) : Result T :=
  match t with
  | Input shape dtype name => v ← getitem feeds name; feed shape dtype v
  | Apply l x => vx ← eval x; apply_layer l training [vx] None
  | ApplyTuple l x y z =>
      vx ← eval x; vy ← eval y; vz ← eval z;
      apply_layer l training [vx; vy; vz] None
  | ApplyMasked l x padding_mask =>
      vx ← eval x; vm ← eval padding_mask;
      apply_layer l training [vx] (Some vm)
  | Subscript x index => vx ← eval x; subscript vx index
  end.

(** The dictionary of outputs, evaluated key by key. *)
Definition eval_outputs (outputs : gmap string KTensor)
  : Result (gmap string T) :=
  map_fold (λ k t acc, m ← acc; v ← eval t; Ok (<[k := v]> m))
           (Ok ∅) outputs.

(** The value of a tensor, if its evaluation returns. *)
Definition value_of (t : KTensor) : option T :=
  match eval t with
  | Ok v => Some v
  | Err _ => None
  end.

End Eval.

End Functional.
Export Functional.

(** ** Static shapes

    The shape backend: a tensor is its shape.  The rules for the layers of
    [keras.layers] are those of Keras. *)

Module Shapes.

Definition Shape := list Z.

Fixpoint compatible (spec : list (option Z)) (dims : Shape) : bool :=
  match spec, dims with
  | [], [] => true
  | None :: spec', _ :: dims' => compatible spec' dims'
  | Some d :: spec', d' :: dims' => (d =? d')%Z && compatible spec' dims'
  | _, _ => false
  end.

(** [keras.Input(shape=spec)] accepts a value with one more (batch)
    dimension in front of [spec]. *)
Definition shape_feed (spec : list (option Z)) (dtype : string) (v : Shape)
  : Result Shape :=
  match v with
  | _ :: dims =>
      if compatible spec dims then Ok v
      else Err (ValueError "Input is incompatible with the layer")
  | [] => Err (ValueError "Input is incompatible with the layer")
  end.

Definition positive_int (v : PyVal) : option Z :=
  match v with
  | VInt n => if 0 <? n then Some n else None
  | _ => None
  end.

Definition shape_eqb (a b : Shape) : bool := bool_decide (a = b).

(** Modelled from the spec: the layer
    [keras_nlp.layers.position_embedding.PositionEmbedding] is imported by
    [bert_models.py]; its source is not part of this development.  Section
    4.1: it is a learned table indexed by the positions
    [0..max_sequence_length-1] which at call time produces a slice matching
    the actual [seq_len], to be summed elementwise with the token embedding;
    [seq_len] must not exceed [max_sequence_length], violating this fails
    with a shape error. *)
Definition position_embedding_shape (sequence_length : PyVal) (x : Shape)
  : Result Shape :=
  match sequence_length, x with
  | VInt max_len, [batch; seq_len; hidden] =>
      if seq_len <=? max_len then Ok [batch; seq_len; hidden]
      else Err (ValueError "sequence length exceeds max_sequence_length")
  | _, _ => Err (ValueError "PositionEmbedding: invalid input")
  end.

(** Modelled from the spec: the layer
    [keras_nlp.layers.transformer_encoder.TransformerEncoder] is imported by
    [bert_models.py]; its source is not part of this development.  Section
    4.2: input [[batch, seq_len, hidden_dim]] and padding mask
    [[batch, seq_len]] give an output of identical shape. *)
Definition transformer_encoder_shape (x : Shape) (padding_mask : option Shape)
  : Result Shape :=
  match x, padding_mask with
  | [batch; seq_len; hidden], Some [batch'; seq_len'] =>
      if (batch =? batch')%Z && (seq_len =? seq_len')%Z
      then Ok [batch; seq_len; hidden]
      else Err (ValueError "padding_mask does not match the input")
  | [batch; seq_len; hidden], None => Ok [batch; seq_len; hidden]
  | _, _ => Err (ValueError "TransformerEncoder: invalid input")
  end.

Definition shape_apply (l : Layer) (training : bool) (xs : list Shape)
    (padding_mask : option Shape) : Result Shape :=
  match l, xs, padding_mask with
  | Embedding input_dim output_dim _ _, [x], None =>
      match positive_int input_dim, positive_int output_dim with
      | Some _, Some d => Ok (x ++ [d])
      | _, _ => Err (ValueError
                       "Both `input_dim` and `output_dim` should be positive")
      end
  | PositionEmbedding _ sequence_length _, [x], None =>
      position_embedding_shape sequence_length x
  | Add, x :: rest, None =>
      if forallb (shape_eqb x) rest then Ok x
      else Err (ValueError "Inputs have incompatible shapes")
  | LayerNormalization _ axis _ _, [x], None =>
      if (- Z.of_nat (length x) <=? axis) && (axis <? Z.of_nat (length x))
      then Ok x
      else Err (ValueError "Invalid axis")
  | Dropout _ _, [x], None => Ok x
  | TransformerEncoder _ _ _ _ _ _, [x], mask =>
      transformer_encoder_shape x mask
  | Dense units _ _ _, [x], None =>
      match positive_int units, x with
      | Some u, _ :: _ => Ok (removelast x ++ [u])
      | _, _ => Err (ValueError "Dense: invalid units or input")
      end
  | _, _, _ => Err (TypeError "call() got unexpected arguments")
  end.

(** [x[:, index, :]] on a tensor of rank 3; a negative index counts from
    the end of the axis. *)
Definition shape_subscript (x : Shape) (index : Z) : Result Shape :=
  match x with
  | [batch; seq_len; hidden] =>
      if (- seq_len <=? index) && (index <? seq_len)
      then Ok [batch; hidden]
      else Err (IndexError "slice index out of bounds")
  | _ => Err (IndexError "too many indices")
  end.

Global Instance shape_backend : Backend Shape := {|
  feed := shape_feed;
  apply_layer := shape_apply;
  subscript := shape_subscript;
|}.

End Shapes.
Export Shapes.

(** ** Effects: the world outside the model and the model's parameters

    [get_file] downloads into a cache on the file system; loading weights
    reads the file system and overwrites the parameters of the model.  A
    computation threads both and may raise; what it changed before raising
    stays changed. *)

Module Effects.

Record State (World Params : Type) := mkState {
  world : World;
  params : Params;
}.
Global Arguments mkState {World Params} world params.
Global Arguments world {World Params} s.
Global Arguments params {World Params} s.

Definition M (S A : Type) : Type := S → Result A * S.

Global Instance M_ret {S} : MRet (M S) := λ A a σ, (Ok a, σ).
Global Instance M_bind {S} : MBind (M S) := λ A B k m σ,
  match m σ with
  | (Ok a, σ') => k a σ'
  | (Err e, σ') => (Err e, σ')
  end.

(** A pure step that may raise. *)
Definition lift {S A} (r : Result A) : M S A := λ σ, (r, σ).

(** A step on the world that leaves the parameters alone. *)
Definition on_world {W P A} (f : W → Result A * W) : M (State W P) A := λ σ,
  let '(r, w) := f (world σ) in (r, mkState w (params σ)).

(** A step that reads the world and writes the parameters. *)
Definition on_params {W P A} (f : W → P → Result A * P) : M (State W P) A :=
  λ σ, let '(r, p) := f (world σ) (params σ) in (r, mkState (world σ) p).

End Effects.
Export Effects.

(** ** keras_nlp/models/bert/bert_models.py *)

Module BertModels.

(** [bert_kernel_initializer(stddev=0.02)] *)
Definition default_stddev : Q := 0.02.
Definition bert_kernel_initializer (stddev : Q) : Initializer :=
  TruncatedNormal stddev.

(** An instance of [Bert]: the functional model ([inputs], [outputs],
    [name], [trainable]) and the attributes [__init__] sets on [self]. *)
Record Bert := mkBert {
  inputs : gmap string KTensor;
  outputs : gmap string KTensor;
  name : PyVal;
  trainable : PyVal;
  token_embedding : Layer;
  vocabulary_size : PyVal;
  hidden_dim : PyVal;
  intermediate_dim : PyVal;
  num_layers : PyVal;
  num_heads : PyVal;
  max_sequence_length : PyVal;
  num_segments : PyVal;
  dropout : PyVal;
  cls_token_index : Z;
}.

(** The body of the loop [for i in range(num_layers)]. *)
Definition encoder_block (num_heads intermediate_dim dropout : PyVal)
    (padding_mask x : KTensor) (i : Z) : KTensor :=
  ApplyMasked
    (TransformerEncoder num_heads intermediate_dim (GeluLambda true) dropout
       (bert_kernel_initializer default_stddev)
       ("transformer_layer_" +:+ format_int i))
    x padding_mask.

(** The embedding part of [__init__], lines 125 to 158. *)
Definition embeddings (vocabulary_size hidden_dim dropout max_sequence_length
    num_segments : PyVal) (token_id_input segment_id_input : KTensor)
  : Layer * KTensor :=
  let token_embedding_layer :=
    Embedding vocabulary_size hidden_dim
      (bert_kernel_initializer default_stddev) "token_embedding" in
  let token_embedding := Apply token_embedding_layer token_id_input in
  let position_embedding :=
    Apply (PositionEmbedding (bert_kernel_initializer default_stddev)
             max_sequence_length "position_embedding")
          token_embedding in
  let segment_embedding :=
    Apply (Embedding num_segments hidden_dim
             (bert_kernel_initializer default_stddev) "segment_embedding")
          segment_id_input in
  let x := ApplyTuple Add token_embedding position_embedding
             segment_embedding in
  let x := Apply (LayerNormalization "embeddings_layer_norm" (-1) 1e-12
                    "float32") x in
  let x := Apply (Dropout dropout "embeddings_dropout") x in
  (token_embedding_layer, x).

Definition __init__ (vocabulary_size num_layers num_heads hidden_dim
    intermediate_dim dropout max_sequence_length num_segments name
    trainable : PyVal) : Result Bert :=
  let cls_token_index := 0 in
  let token_id_input := Input [None] "int32" "token_ids" in
  let segment_id_input := Input [None] "int32" "segment_ids" in
  let padding_mask := Input [None] "int32" "padding_mask" in
  let '(token_embedding_layer, x) :=
    embeddings vocabulary_size hidden_dim dropout max_sequence_length
      num_segments token_id_input segment_id_input in
  layers ← range num_layers;
  let x := foldl (encoder_block num_heads intermediate_dim dropout
                    padding_mask) x layers in
  let sequence_output := x in
  let pooled_output :=
    Apply (Dense hidden_dim (bert_kernel_initializer default_stddev)
             (ActivationName "tanh") "pooled_dense")
          (Subscript x cls_token_index) in
  Ok {| inputs := {[ "token_ids" := token_id_input;
                     "segment_ids" := segment_id_input;
                     "padding_mask" := padding_mask ]};
        outputs := {[ "sequence_output" := sequence_output;
                      "pooled_output" := pooled_output ]};
        name := name;
        trainable := trainable;
        token_embedding := token_embedding_layer;
        vocabulary_size := vocabulary_size;
        hidden_dim := hidden_dim;
        intermediate_dim := intermediate_dim;
        num_layers := num_layers;
        num_heads := num_heads;
        max_sequence_length := max_sequence_length;
        num_segments := num_segments;
        dropout := dropout;
        cls_token_index := cls_token_index |}.

(** [self(batch, training=training)]: the outputs of the functional model
    on the dictionary [batch]. *)
Definition call {T} `{Backend T} (self : Bert) (training : bool)
    (batch : gmap string T) : Result (gmap string T) :=
  eval_outputs training batch (outputs self).

(** The parameter list of [__init__] with its defaults. *)
Definition signature : Call.Signature :=
  [ ("vocabulary_size", None);
    ("num_layers", None);
    ("num_heads", None);
    ("hidden_dim", None);
    ("intermediate_dim", None);
    ("dropout", Some (VFloat 0.1));
    ("max_sequence_length", Some (VInt 512));
    ("num_segments", Some (VInt 2));
    ("name", Some VNone);
    ("trainable", Some (VBool true)) ].

(** Calling the class with an unpacked dictionary of keywords: bind the
    keywords to the parameters, then run [__init__]. *)
Definition new (kwargs : gmap string PyVal) : Result Bert :=
  args ← Call.bind_keywords signature kwargs;
  match args with
  | [vocabulary_size; num_layers; num_heads; hidden_dim; intermediate_dim;
     dropout; max_sequence_length; num_segments; name; trainable] =>
      __init__ vocabulary_size num_layers num_heads hidden_dim
        intermediate_dim dropout max_sequence_length num_segments name
        trainable
  | _ => Err (TypeError "__init__() takes from 6 to 11 positional arguments")
  end.

Definition get_config (self : Bert) : gmap string PyVal :=
  {[ "vocabulary_size" := vocabulary_size self;
     "hidden_dim" := hidden_dim self;
     "intermediate_dim" := intermediate_dim self;
     "num_layers" := num_layers self;
     "num_heads" := num_heads self;
     "max_sequence_length" := max_sequence_length self;
     "num_segments" := num_segments self;
     "dropout" := dropout self;
     "cls_token_index" := VInt (cls_token_index self) ]}.

(** The argument of [from_config]: a preset name or a configuration
    dictionary. *)
Inductive ConfigArg :=
| ConfigName (s : string)
| ConfigDict (d : gmap string PyVal).

(** The argument of [load_weights]: a [str], or an object that is not a
    [str], such as [pathlib.Path(p)]. *)
Inductive WeightsArg :=
| WeightsStr (s : string)
| WeightsPath (p : string).

Section Presets.

(** The tables of [keras_nlp.models.bert.bert_presets], which the module
    imports. *)
Variable backbone_configs : gmap string (gmap string PyVal).
Variable backbone_weight_urls : gmap string string.
Variable backbone_weight_hashes : gmap string string.

Definition from_config (config : ConfigArg) : Result Bert :=
  config ← match config with
           | ConfigName s => getitem backbone_configs s
           | ConfigDict d => Ok d
           end;
  new config.

(** The two library calls of [load_weights]:
    [keras.utils.get_file(fname, origin, cache_subdir=..., file_hash=...)],
    which works on the file system and returns the path of the file, and
    [keras.Model.load_weights(self, filepath)], which reads the file and
    writes the parameters of [self]. *)
Context {World Params : Type}.
Variable get_file :
  string → string → string → string → World → Result string * World.
Variable Model_load_weights :
  Bert → WeightsArg → World → Params → Result unit * Params.

Definition load_weights (self : Bert) (weights : WeightsArg)
  : M (State World Params) unit :=
  weights ← match weights with
            | WeightsStr name =>
                origin ← lift (getitem backbone_weight_urls name);
                let cache_subdir := os_path_join "models" name in
                file_hash ← lift (getitem backbone_weight_hashes name);
                path ← on_world (get_file "model.h5" origin cache_subdir
                                   file_hash);
                mret (WeightsStr path)
            | WeightsPath p => mret (WeightsPath p)
            end;
  on_params (Model_load_weights self weights).

Definition from_preset (id : string) : M (State World Params) Bert :=
  model ← lift (from_config (ConfigName id));
  load_weights model (WeightsStr id);;
  mret model.

End Presets.

End BertModels.

(** ** The preset model [BertBase] *)

Module BertBaseModel.
Import BertModels.

Section BertBase.

Variable backbone_configs : gmap string (gmap string PyVal).

(** The hyperparameters of the base architecture other than the size of the
    vocabulary. *)
Variable base_config : gmap string PyVal.

(** Does the given vocabulary size conflict with the one of the preset? *)
Definition conflicting (vocabulary_size : Z) (config : gmap string PyVal)
  : bool :=
  match config !! "vocabulary_size" with
  | Some (VInt v) => negb (v =? vocabulary_size)
  | _ => true
  end.

(** Modelled from the spec: the class [BertBase], which
    [test_bert_base_vocab_error] constructs, is not part of the sources.
    Section 4.5: the caller must supply either [vocabulary_size] or a
    [weights] preset name, not neither and not conflicting incompatible
    values, and construction fails with a configuration error otherwise;
    section 8: it also fails when an unregistered preset name is passed as
    [weights].  The error is the [ValueError] the test expects.  Loading
    the weights of the preset comes after construction and is not part of
    this definition. *)
Definition BertBase (weights : option string) (vocabulary_size : option Z)
    (name : PyVal) : Result Bert :=
  match weights, vocabulary_size with
  | None, None =>
      Err (ValueError "One of `vocabulary_size` or `weights` must be given")
  | None, Some v =>
      new (<["vocabulary_size" := VInt v]> (<["name" := name]> base_config))
  | Some w, vocabulary_size =>
      match backbone_configs !! w with
      | None => Err (ValueError "`weights` is not a registered preset")
      | Some config =>
          match vocabulary_size with
          | Some v =>
              if conflicting v config
              then Err (ValueError
                          "`vocabulary_size` conflicts with `weights`")
              else new (<["name" := name]> config)
          | None => new (<["name" := name]> config)
          end
      end
  end.

End BertBase.

End BertBaseModel.

(** ** pip_build.py *)

Module PipBuild.

Definition hub_package : string := "keras_hub".
Definition nlp_package : string := "keras_nlp".
Definition build_directory : string := "tmp_build_dir".
Definition dist_directory : string := "dist".
Definition to_copy : list string := ["setup.py"; "setup.cfg"; "README.md"].

Definition ignore_files (_ : string) (filenames : list string) : list string :=
  List.filter (λ f, str_contains "_test" f) filenames.

(** A directory tree: files with their content, directories with their
    entries in the order [os.scandir] lists them. *)
#[local] Set Warnings "-register-all".
Inductive Entry :=
| File (name : string) (content : string)
| Dir (name : string) (entries : list Entry).

Definition entry_name (e : Entry) : string :=
  match e with File n _ | Dir n _ => n end.

(** [shutil.copytree(src, dst, ignore=ignore)]: [ignore] is called once per
    directory with its path and the names in it, the entries it returns are
    skipped, the other directories are copied recursively and the other
    files are copied. *)
Definition copy_listing (copy : Entry → Entry) (ignored_names : list string)
    (entries : list Entry) : list Entry :=
  flat_map (λ e, if bool_decide (entry_name e ∈ ignored_names) then []
                 else [copy e])
           entries.

Fixpoint copy_entry (ignore : string → list string → list string)
    (parent : string) (e : Entry) {struct e} : Entry :=
  match e with
  | File n content => File n content
  | Dir n entries =>
      let src := os_path_join parent n in
      Dir n (copy_listing (copy_entry ignore src)
               (ignore src (entry_name <$> entries)) entries)
  end.

Definition copytree (ignore : string → list string → list string)
    (src : string) (entries : list Entry) : list Entry :=
  copy_listing (copy_entry ignore src) (ignore src (entry_name <$> entries))
    entries.

(** The entry called [name] in a listing. *)
Definition find_entry (name : string) (entries : list Entry) : option Entry :=
  List.find (λ e, String.eqb (entry_name e) name) entries.

(** Write the entry [e] into a listing, in place of the entry of that name
    if there is one. *)
Fixpoint put_entry (e : Entry) (entries : list Entry) : list Entry :=
  match entries with
  | [] => [e]
  | e' :: rest =>
      if String.eqb (entry_name e') (entry_name e) then e :: rest
      else e' :: put_entry e rest
  end.

(** The listing of the directory [name], empty when it does not exist yet
    ([copytree] creates the missing parents of its destination). *)
Definition listing_or_empty (name : string) (entries : list Entry)
  : Result (list Entry) :=
  match find_entry name entries with
  | Some (Dir _ es) => Ok es
  | Some (File _ _) => Err (OSError "Not a directory")
  | None => Ok []
  end.

(** [shutil.copy(src, dst)] where [dst] is the path [fname] in the listing
    [directory]: into [dst] when that is a directory, onto it otherwise. *)
Definition copy_into (fname content : string) (directory : list Entry)
  : Result (list Entry) :=
  match find_entry fname directory with
  | Some (Dir n inner) =>
      match find_entry fname inner with
      | Some (Dir _ _) => Err (OSError "Is a directory")
      | _ => Ok (put_entry (Dir n (put_entry (File fname content) inner))
                   directory)
      end
  | _ => Ok (put_entry (File fname content) directory)
  end.

(** [shutil.copy(root_path / fname, root_path / build_directory / fname)] on
    the listing of [root_path]. *)
Definition copy_to_build (fname : string) : M (list Entry) unit := λ root,
  match find_entry fname root with
  | Some (File _ content) =>
      match find_entry build_directory root with
      | Some (Dir _ build) =>
          match copy_into fname content build with
          | Ok build' => (Ok (), put_entry (Dir build_directory build') root)
          | Err e => (Err e, root)
          end
      | Some (File _ _) => (Err (OSError "Not a directory"), root)
      | None => (Err (OSError "No such file or directory"), root)
      end
  | Some (Dir _ _) => (Err (OSError "Is a directory"), root)
  | None => (Err (OSError "No such file or directory"), root)
  end.

(** [shutil.copytree(root_path / package,
    root_path / build_directory / package, ignore=ignore_files)] on the
    listing of [root_path]. *)
Definition copy_package (package : string) : M (list Entry) unit := λ root,
  match find_entry package root with
  | Some (Dir _ source) =>
      match listing_or_empty build_directory root with
      | Ok build =>
          match find_entry package build with
          | Some _ => (Err (OSError "File exists"), root)
          | None =>
              let copied := copytree ignore_files package source in
              (Ok (), put_entry (Dir build_directory
                                   (put_entry (Dir package copied) build))
                        root)
          end
      | Err e => (Err e, root)
      end
  | Some (File _ _) => (Err (OSError "Not a directory"), root)
  | None => (Err (OSError "No such file or directory"), root)
  end.

(** The state is the listing of [root_path]. *)
Definition copy_source_to_build_directory (package : string)
  : M (list Entry) unit :=
  copy_package package;;
  mapM copy_to_build to_copy;;
  mret ().

(** The files below a listing, each as the list of the names on its path. *)
Fixpoint entry_files (e : Entry) : list (list string) :=
  match e with
  | File n _ => [[n]]
  | Dir n entries => (cons n) <$> flat_map entry_files entries
  end.

Definition files (entries : list Entry) : list (list string) :=
  flat_map entry_files entries.

End PipBuild.

(** ** pip_build.py: [update_version] *)

Module PipBuildVersion.
Import PipBuild.

(** The characters the source writes as [\n] and as a double quote inside
    single quotes. *)
Definition newline : string :=
  String (Ascii.Ascii false true false true false false false false) "".
Definition double_quote : string :=
  String (Ascii.Ascii false true false false false true false false) "".

(** [s.replace(old, new)]: the occurrences of [old] are replaced from left
    to right, an occurrence starting where the previous one ended at the
    earliest; with an empty [old], [new] is put before every character and
    at the end. *)
Fixpoint replace_from (old new : string) (skip : nat) (s : string) : string :=
  match s with
  | EmptyString => EmptyString
  | String c rest =>
      match skip with
      | S k => replace_from old new k rest
      | O =>
          if String.prefix old s
          then new +:+ replace_from old new (String.length old - 1) rest
          else String c (replace_from old new 0 rest)
      end
  end.

Fixpoint interleave (new s : string) : string :=
  match s with
  | EmptyString => EmptyString
  | String c rest => String c (new +:+ interleave new rest)
  end.

Definition str_replace (old new s : string) : string :=
  match old with
  | EmptyString => new +:+ interleave new s
  | _ => replace_from old new 0 s
  end.

(** [open(path).read()] for the entry [name] of a listing. *)
Definition read_file (name : string) (directory : list Entry) : Result string :=
  match find_entry name directory with
  | Some (File _ contents) => Ok contents
  | Some (Dir _ _) => Err (OSError "Is a directory")
  | None => Err (OSError "No such file or directory")
  end.

(** A step that reads the state, and one that rewrites it. *)
Definition reading {S A} (f : S → Result A) : M S A := λ σ, (f σ, σ).
Definition writing {S} (f : S → S) : M S unit := λ σ, (Ok (), f σ).

Section UpdateVersion.

(** [datetime.datetime.now().strftime('%Y%m%d%H')] at the time of the call,
    and [re.sub(pattern, repl, string)]. *)
Variable now : string.
Variable re_sub : string → string → string → string.

Definition package_name (package : string) (is_nightly : bool) : string :=
  if is_nightly then package +:+ "-nightly"
  else str_replace "_" "-" package.

Definition exported_version (version : string) (is_nightly : bool) : string :=
  if is_nightly then version +:+ ".dev" +:+ now else version.

(** The two replacements in the text of [setup.py]. *)
Definition rewrite_setup (package version : string) (is_nightly : bool)
    (setup_contents : string) : string :=
  let setup_contents :=
    str_replace "name="
      ("name=" +:+ double_quote +:+ package_name package is_nightly
       +:+ double_quote +:+ ",  # ")
      setup_contents in
  str_replace "VERSION = "
    ("VERSION = " +:+ double_quote +:+ exported_version version is_nightly
     +:+ double_quote +:+ "  # ")
    setup_contents.

(** The substitution in the text of [version_utils.py]. *)
Definition rewrite_version_utils (version : string) (is_nightly : bool)
    (contents : string) : string :=
  re_sub (newline +:+ "__version__ = .*" +:+ newline)
    (newline +:+ "__version__ = " +:+ double_quote
     +:+ exported_version version is_nightly +:+ double_quote +:+ newline)
    contents.

(** The last part of [update_version]: the file
    [build_path / package / "src" / "version_utils.py"], if it exists, is
    rewritten. *)
Definition update_version_utils (package version : string)
    (is_nightly : bool) : M (list Entry) unit := λ build,
  match find_entry package build with
  | Some (Dir package_dir in_package) =>
      match find_entry "src" in_package with
      | Some (Dir src_dir in_src) =>
          match find_entry "version_utils.py" in_src with
          | Some (File version_utils contents) =>
              (Ok (),
               put_entry
                 (Dir package_dir
                    (put_entry
                       (Dir src_dir
                          (put_entry
                             (File version_utils
                                (rewrite_version_utils version is_nightly
                                   contents))
                             in_src))
                       in_package))
                 build)
          | Some (Dir _ _) => (Err (OSError "Is a directory"), build)
          | None => (Ok (), build)
          end
      | _ => (Ok (), build)
      end
  | _ => (Ok (), build)
  end.

(** The state is the listing of [build_path]. *)
Definition update_version (package version : string) (is_nightly : bool)
  : M (list Entry) unit :=
  setup_contents ← reading (read_file "setup.py");
  writing (put_entry
             (File "setup.py"
                (rewrite_setup package version is_nightly setup_contents)));;
  update_version_utils package version is_nightly.

End UpdateVersion.

End PipBuildVersion.

(** * The vocabulary of the properties *)

(** ** Configurations and batches *)

Module Configs.
Import BertModels.

(** The keywords of a call with the five required arguments only. *)
Definition required_only (vocabulary_size num_layers num_heads hidden_dim
    intermediate_dim : PyVal) : gmap string PyVal :=
  {[ "vocabulary_size" := vocabulary_size;
     "num_layers" := num_layers;
     "num_heads" := num_heads;
     "hidden_dim" := hidden_dim;
     "intermediate_dim" := intermediate_dim ]}.

(** The hyperparameters of section 3 of the specification that a call with
    the required arguments only has to get right. *)
Definition valid_required (vocabulary_size num_layers num_heads hidden_dim
    intermediate_dim : Z) : Prop :=
  0 < vocabulary_size ∧ 0 < num_layers ∧ 0 < num_heads ∧ 0 < hidden_dim ∧
  (num_heads | hidden_dim) ∧ 0 < intermediate_dim.

(** The constraints of section 3 of the specification on a configuration. *)
Definition valid_config (vocabulary_size num_layers num_heads hidden_dim
    intermediate_dim : Z) (dropout : Q) (max_sequence_length num_segments : Z)
  : Prop :=
  valid_required vocabulary_size num_layers num_heads hidden_dim
    intermediate_dim ∧
  (0 <= dropout)%Q ∧ (dropout < 1)%Q ∧
  0 < max_sequence_length ∧ 1 ≤ num_segments.

(** The batch [{"token_ids": ..., "segment_ids": ..., "padding_mask": ...}]. *)
Definition input_batch (token_ids segment_ids padding_mask : Shape)
  : gmap string Shape :=
  {[ "token_ids" := token_ids;
     "segment_ids" := segment_ids;
     "padding_mask" := padding_mask ]}.

(** An example registry of presets, and the model of the tests. *)
Definition example_config : gmap string PyVal :=
  {[ "vocabulary_size" := VInt 30522;
     "num_layers" := VInt 12;
     "num_heads" := VInt 12;
     "hidden_dim" := VInt 768;
     "intermediate_dim" := VInt 3072;
     "dropout" := VFloat 0.1;
     "max_sequence_length" := VInt 512;
     "num_segments" := VInt 2 ]}.

Definition example_configs : gmap string (gmap string PyVal) :=
  {[ "bert_base_uncased" := example_config ]}.

(** [BertCustom(vocabulary_size=1000, num_layers=2, num_heads=2,
    hidden_dim=64, intermediate_dim=128, max_sequence_length=128,
    name="encoder")] of [BertTest.setUp]. *)
Definition test_kwargs : gmap string PyVal :=
  {[ "vocabulary_size" := VInt 1000;
     "num_layers" := VInt 2;
     "num_heads" := VInt 2;
     "hidden_dim" := VInt 64;
     "intermediate_dim" := VInt 128;
     "max_sequence_length" := VInt 128;
     "name" := VStr "encoder" ]}.

End Configs.

(** ** Reading the graph *)

Module Graph.
Import BertModels.

(** The encoder blocks a tensor ends in, the first applied first, each with
    its layer, its input and its padding mask. *)
Fixpoint encoder_blocks (t : KTensor) : list (Layer * KTensor * KTensor) :=
  match t with
  | ApplyMasked (TransformerEncoder _ _ _ _ _ _ as l) x padding_mask =>
      encoder_blocks x ++ [(l, x, padding_mask)]
  | _ => []
  end.

(** The tensor the first of these blocks is applied to. *)
Fixpoint below_encoder_blocks (t : KTensor) : KTensor :=
  match t with
  | ApplyMasked (TransformerEncoder _ _ _ _ _ _) x _ => below_encoder_blocks x
  | _ => t
  end.

(** The output of a block. *)
Definition block_output (b : Layer * KTensor * KTensor) : KTensor :=
  ApplyMasked b.1.1 b.1.2 b.2.

(** The three inputs, the embedding nodes and the layer of block [i], as
    [__init__] writes them. *)
Definition token_ids : KTensor := Input [None] "int32" "token_ids".
Definition segment_ids : KTensor := Input [None] "int32" "segment_ids".
Definition padding_mask : KTensor := Input [None] "int32" "padding_mask".

Section Nodes.
Variables vocabulary_size num_heads hidden_dim intermediate_dim dropout
  max_sequence_length num_segments : PyVal.

Definition token_embedding_node : KTensor :=
  Apply (Embedding vocabulary_size hidden_dim (TruncatedNormal 0.02)
           "token_embedding") token_ids.

Definition position_embedding_node : KTensor :=
  Apply (PositionEmbedding (TruncatedNormal 0.02) max_sequence_length
           "position_embedding") token_embedding_node.

Definition segment_embedding_node : KTensor :=
  Apply (Embedding num_segments hidden_dim (TruncatedNormal 0.02)
           "segment_embedding") segment_ids.

Definition embedding_output : KTensor :=
  Apply (Dropout dropout "embeddings_dropout")
    (Apply (LayerNormalization "embeddings_layer_norm" (-1) 1e-12 "float32")
       (ApplyTuple Add token_embedding_node position_embedding_node
          segment_embedding_node)).

Definition encoder_layer (i : Z) : Layer :=
  TransformerEncoder num_heads intermediate_dim (GeluLambda true) dropout
    (TruncatedNormal 0.02) ("transformer_layer_" +:+ pretty i).

(** The tensor after the first [k] blocks. *)
Definition stack (k : nat) : KTensor :=
  foldl (encoder_block num_heads intermediate_dim dropout padding_mask)
    embedding_output (Z.of_nat <$> seq 0 k).

End Nodes.

End Graph.

(** ** The world of [load_weights] *)

Module KerasWorld.
Import BertModels.

(** A name is registered for [load_weights] when both tables have it. *)
Definition registered (backbone_weight_urls backbone_weight_hashes :
    gmap string string) (s : string) : Prop :=
  is_Some (backbone_weight_urls !! s) ∧ is_Some (backbone_weight_hashes !! s).

(** An example world

    The file system holds the files on disk and what the URLs serve.  The
    two library calls are modelled after the Keras documentation:
    [get_file] reuses a cached file whose hash is the expected one and
    downloads otherwise, and raises [ValueError] when the downloaded file
    does not have the expected hash; [Model.load_weights] replaces the
    parameters by the content of the file. *)

Record FileSystem := mkFileSystem {
  remote : gmap string string;
  disk : gmap string string;
}.

Definition keras_get_file (hash : string → string)
    (fname origin cache_subdir file_hash : string) (fs : FileSystem)
  : Result string * FileSystem :=
  let fpath := os_path_join (os_path_join "~/.keras" cache_subdir) fname in
  let download :=
    match disk fs !! fpath with
    | Some content => negb (String.eqb (hash content) file_hash)
    | None => true
    end in
  if download then
    match remote fs !! origin with
    | Some content =>
        let fs' := mkFileSystem (remote fs) (<[fpath := content]> (disk fs)) in
        if String.eqb (hash content) file_hash then (Ok fpath, fs')
        else (Err (ValueError "Incomplete or corrupted file detected"), fs')
    | None => (Err (OSError "URL fetch failure"), fs)
    end
  else (Ok fpath, fs).

Definition keras_Model_load_weights (self : Bert) (filepath : WeightsArg)
    (fs : FileSystem) (parameters : string) : Result unit * string :=
  let path := match filepath with WeightsStr p | WeightsPath p => p end in
  match disk fs !! path with
  | Some content => (Ok (), content)
  | None => (Err (OSError "Unable to open file"), parameters)
  end.

Definition example_hash (content : string) : string :=
  "h(" +:+ content +:+ ")".

Definition example_urls : gmap string string :=
  {[ "bert_base_uncased" := "https://example.org/bert_base_uncased.h5";
     "bert_base_cased" := "https://example.org/bert_base_cased.h5" ]}.

Definition example_hashes : gmap string string :=
  {[ "bert_base_uncased" := "h(uncased-weights)";
     "bert_base_cased" := "h(cased-weights)" ]}.

(** The first URL serves the registered artifact, the second one something
    else; a weights file [weights.h5] is on disk. *)
Definition example_fs : FileSystem :=
  mkFileSystem
    {[ "https://example.org/bert_base_uncased.h5" := "uncased-weights";
       "https://example.org/bert_base_cased.h5" := "tampered" ]}
    {[ "weights.h5" := "local-weights" ]}.

Definition example_state : State FileSystem string :=
  mkState example_fs "initial-weights".

Definition example_load_weights (self : Bert) (weights : WeightsArg)
  : M (State FileSystem string) unit :=
  load_weights example_urls example_hashes (keras_get_file example_hash)
    keras_Model_load_weights self weights.

End KerasWorld.

(** ** Directory trees *)

Module Trees.
Import PipBuild.

(** A path is clean when no name on it contains ["_test"]. *)
Definition clean (path : list string) : bool :=
  forallb (λ n, negb (str_contains "_test" n)) path.

(** The build directory holds the copy [copied] of the package. *)
Definition holds_copy (package : string) (copied : list Entry)
    (root : list Entry) : Prop :=
  ∃ build,
    find_entry build_directory root = Some (Dir build_directory build) ∧
    find_entry package build = Some (Dir package copied).

(** A checkout with the sources of this development, and an empty build
    directory. *)
Definition example_root : list Entry :=
  [ Dir "keras_nlp"
      [ Dir "models"
          [ Dir "bert" [ File "bert_models.py" "..." ];
            File "bert_test.py" "..." ];
        Dir "layers_test" [ File "helper.py" "..." ] ];
    File "pip_build.py" "...";
    File "setup.py" "...";
    File "setup.cfg" "...";
    File "README.md" "...";
    Dir "tmp_build_dir" [] ].

End Trees.

(** ** Layers and inputs of a graph *)

Module GraphReading.

(** The [name=] a layer was created with; [Add()] is given none. *)
Definition layer_name (l : Layer) : option string :=
  match l with
  | Embedding _ _ _ n | PositionEmbedding _ _ n | LayerNormalization n _ _ _
  | Dropout _ n | TransformerEncoder _ _ _ _ _ n | Dense _ _ _ n => Some n
  | Add => None
  end.

(** The layers a tensor is computed with, one entry per application. *)
Fixpoint layers_of (t : KTensor) : list Layer :=
  match t with
  | Input _ _ _ => []
  | Apply l x => l :: layers_of x
  | ApplyTuple l x y z => l :: layers_of x ++ layers_of y ++ layers_of z
  | ApplyMasked l x m => l :: layers_of x ++ layers_of m
  | Subscript x _ => layers_of x
  end.

(** The names of the [keras.Input]s a tensor is computed from. *)
Fixpoint input_names (t : KTensor) : list string :=
  match t with
  | Input _ _ name => [name]
  | Apply _ x => input_names x
  | ApplyTuple _ x y z => input_names x ++ input_names y ++ input_names z
  | ApplyMasked _ x m => input_names x ++ input_names m
  | Subscript x _ => input_names x
  end.

(** The layers [__init__] creates once: those of the embedding part and
    the pooling layer. *)
Definition fixed_layers (vocabulary_size hidden_dim dropout
    max_sequence_length num_segments : PyVal) : list Layer :=
  [ Dropout dropout "embeddings_dropout";
    LayerNormalization "embeddings_layer_norm" (-1) 1e-12 "float32";
    Add;
    Embedding vocabulary_size hidden_dim (TruncatedNormal 0.02)
      "token_embedding";
    PositionEmbedding (TruncatedNormal 0.02) max_sequence_length
      "position_embedding";
    Embedding num_segments hidden_dim (TruncatedNormal 0.02)
      "segment_embedding";
    Dense hidden_dim (TruncatedNormal 0.02) (ActivationName "tanh")
      "pooled_dense" ].

(** The parameters of [__init__] that have no default. *)
Definition required_names : list string :=
  ["vocabulary_size"; "num_layers"; "num_heads"; "hidden_dim";
   "intermediate_dim"].

(** The values [range] accepts. *)
Definition is_integer (v : PyVal) : bool :=
  match v with
  | VInt _ | VBool _ => true
  | _ => false
  end.

End GraphReading.

(** ** A world that records what is asked of [get_file] *)

Module Recording.
Import BertModels.




End Recording.

(** ** Reading a directory tree *)

Module TreeReading.
Import PipBuild.

(** The names in a tree, of files and directories alike. *)
Fixpoint entry_names (e : Entry) : list string :=
  match e with
  | File n _ => [n]
  | Dir n entries => n :: flat_map entry_names entries
  end.

Definition names (entries : list Entry) : list string :=
  flat_map entry_names entries.

(** The files below a listing with their content. *)
Fixpoint entry_contents (e : Entry) : list (list string * string) :=
  match e with
  | File n content => [([n], content)]
  | Dir n entries =>
      (λ file, (n :: file.1, file.2)) <$> flat_map entry_contents entries
  end.

Definition contents (entries : list Entry) : list (list string * string) :=
  flat_map entry_contents entries.

(** The entries of [root_path] other than the build directory. *)
Definition outside_build (root : list Entry) : list Entry :=
  List.filter (λ e, negb (String.eqb (entry_name e) build_directory)) root.

(** The entry [fname] of a listing is not a directory. *)
Definition no_directory (fname : string) (entries : list Entry) : Prop :=
  ∀ n inner, find_entry fname entries ≠ Some (Dir n inner).

End TreeReading.

(** ** Reading the build directory of [update_version] *)

Module VersionReading.
Import PipBuild.

(** The entries of [build_path] other than [setup.py] and the directory of
    the package. *)
Definition other_than (package : string) (name : string) : bool :=
  negb (String.eqb name "setup.py") && negb (String.eqb name package).

Definition outside_version (package : string) (build : list Entry)
  : list Entry :=
  List.filter (λ e, other_than package (entry_name e)) build.

End VersionReading.

(** ** More examples *)

Module MoreExamples.
Import PipBuild.

(** A checkout without [README.md]. *)
Definition root_without_readme : list Entry :=
  [ Dir "keras_nlp" [ File "bert_models.py" "..." ];
    File "setup.py" "...";
    File "setup.cfg" "..." ].

(** A build directory as [update_version] finds it. *)
Definition example_build : list Entry :=
  [ File "setup.py" "name=x VERSION = y";
    File "README.md" "...";
    Dir "keras_hub"
      [ Dir "src" [ File "version_utils.py" "__version__ = 0" ] ] ].


(** A stand-in for [re.sub] that changes nothing. *)
Definition no_sub (pattern repl text : string) : string := text.

End MoreExamples.

(** * Properties *)

(** ** Keyword binding *)

Module CallFacts.
Import Call.

(** The keyword [unexpected] reports is one of the keywords passed and
    names no parameter. *)
Lemma unexpected_Some sig (kwargs : gmap string PyVal) k :
  unexpected sig kwargs = Some k →
  is_Some (kwargs !! k) ∧ k ∉ param_names sig.
Proof.
  unfold unexpected. intros [Hin Hk]%find_some. split.
  - by apply elem_of_dom, elem_of_elements, list_elem_of_In.
  - by apply negb_true_iff, bool_decide_eq_false in Hk.
Qed.

(** A keyword that names no parameter is reported, whatever else is
    passed. *)
Lemma unexpected_is_Some sig (kwargs : gmap string PyVal) k :
  is_Some (kwargs !! k) → k ∉ param_names sig →
  is_Some (unexpected sig kwargs).
Proof.
  intros Hk Hnot. unfold unexpected.
  destruct (List.find _ _) as [k'|] eqn:Hfind; [eauto|].
  assert (Hin : In k (elements (dom kwargs))).
  { apply list_elem_of_In, elem_of_elements, elem_of_dom, Hk. }
  pose proof (find_none _ _ Hfind _ Hin) as Hnone. simpl in Hnone.
  apply negb_false_iff, bool_decide_eq_true in Hnone. contradiction.
Qed.

End CallFacts.

Module BertFacts.
Import BertModels Configs.

Lemma bind_required_only v n nh h i :
  Call.bind_keywords signature (required_only v n nh h i)
  = Ok [v; n; nh; h; i; VFloat 0.1; VInt 512; VInt 2; VNone; VBool true].
Proof. reflexivity. Qed.

Lemma new_required_only v n nh h i :
  new (required_only v n nh h i)
  = __init__ v n nh h i (VFloat 0.1) (VInt 512) (VInt 2) VNone (VBool true).
Proof. unfold new. by rewrite bind_required_only. Qed.

(** With an integer number of layers [__init__] returns: the loop runs
    [num_layers] times, or not at all when [num_layers <= 0]. *)
Lemma init_returns v n nh h i d L s nm tr :
  ∃ model, __init__ v (VInt n) nh h i d L s nm tr = Ok model.
Proof. unfold __init__. simpl. eauto. Qed.

Lemma cls_token_index_is_no_parameter :
  "cls_token_index" ∉ Call.param_names signature.
Proof. apply (bool_decide_eq_false_1 _). reflexivity. Qed.

Lemma get_config_has_cls_token_index self :
  get_config self !! "cls_token_index" = Some (VInt (cls_token_index self)).
Proof. reflexivity. Qed.

(** C1.  [get_config] returns the key ["cls_token_index"], which is no
    parameter of [__init__]: for every model, [from_config] on the
    dictionary [get_config] returned raises a [TypeError] and no model is
    reloaded. *)
Theorem from_config_of_get_config_raises
    (backbone_configs : gmap string (gmap string PyVal)) (self : Bert) :
  from_config backbone_configs (ConfigDict (get_config self))
  = Err (TypeError
           "__init__() got an unexpected keyword argument 'cls_token_index'").
Proof.
  unfold from_config, new, Call.bind_keywords. simpl.
  destruct (Call.unexpected signature (get_config self)) as [k|] eqn:Hk.
  - apply CallFacts.unexpected_Some in Hk as [Hpassed Hnot].
    assert (k = "cls_token_index") as ->; [|done].
    unfold get_config in Hpassed.
    repeat (apply lookup_insert_is_Some in Hpassed as [<-|[_ Hpassed]];
            [destruct Hnot; apply (bool_decide_eq_true_1 _); reflexivity|]).
    by apply lookup_singleton_is_Some in Hpassed.
  - destruct (CallFacts.unexpected_is_Some signature (get_config self)
                "cls_token_index") as [k' Hk'].
    + rewrite get_config_has_cls_token_index. eauto.
    + apply cls_token_index_is_no_parameter.
    + congruence.
Qed.

(** The same at the model of [test_saving_model]. *)
Example test_model_round_trip_raises :
  ∃ model, new test_kwargs = Ok model ∧
    from_config example_configs (ConfigDict (get_config model))
    = Err (TypeError
             "__init__() got an unexpected keyword argument 'cls_token_index'").
Proof. eexists. split; reflexivity. Qed.

(** Without that key the dictionary is accepted and gives back the
    hyperparameters; [name] and [trainable], which [get_config] leaves out,
    are reset to their defaults. *)
Lemma from_config_without_cls_token_index
    (backbone_configs : gmap string (gmap string PyVal)) (self : Bert) :
  from_config backbone_configs
    (ConfigDict (delete "cls_token_index" (get_config self)))
  = __init__ (vocabulary_size self) (num_layers self) (num_heads self)
      (hidden_dim self) (intermediate_dim self) (dropout self)
      (max_sequence_length self) (num_segments self) VNone (VBool true).
Proof. reflexivity. Qed.

(** C4.  [from_config] looks a string up in [backbone_configs] and builds
    the model from the registered dictionary; it uses a dictionary as it
    is; a string that is no key of [backbone_configs] makes the lookup
    raise [KeyError], the failure the specification files under its
    configuration errors, and nothing is constructed. *)
Theorem from_config_dispatch
    (backbone_configs : gmap string (gmap string PyVal)) :
  (∀ s config, backbone_configs !! s = Some config →
     from_config backbone_configs (ConfigName s) = new config) ∧
  (∀ d, from_config backbone_configs (ConfigDict d) = new d) ∧
  (∀ s, backbone_configs !! s = None →
     from_config backbone_configs (ConfigName s) = Err (KeyError s)).
Proof.
  unfold from_config, getitem. split_and!.
  - intros s config ->. done.
  - done.
  - intros s ->. done.
Qed.

Lemma from_config_dispatch_witness :
  from_config example_configs (ConfigName "bert_base_uncased")
  = new example_config ∧
  from_config example_configs (ConfigName "bert_base_clowntown")
  = Err (KeyError "bert_base_clowntown").
Proof.
  destruct (from_config_dispatch example_configs) as (Hreg & _ & Hunreg).
  split; [apply Hreg | apply Hunreg]; reflexivity.
Defined.

(** C9.  A call that passes the five required arguments and nothing else is
    accepted, and the model it builds is the one built with
    [dropout = 0.1], [max_sequence_length = 512], [num_segments = 2]
    and [trainable = True]. *)
Theorem defaults_when_omitted
    (vocabulary_size num_layers num_heads hidden_dim intermediate_dim : Z) :
  valid_required vocabulary_size num_layers num_heads hidden_dim
    intermediate_dim →
  ∃ model,
    new (required_only (VInt vocabulary_size) (VInt num_layers)
           (VInt num_heads) (VInt hidden_dim) (VInt intermediate_dim))
    = Ok model ∧
    __init__ (VInt vocabulary_size) (VInt num_layers) (VInt num_heads)
      (VInt hidden_dim) (VInt intermediate_dim)
      (VFloat 0.1) (VInt 512) (VInt 2) VNone (VBool true)
    = Ok model ∧
    dropout model = VFloat 0.1 ∧
    max_sequence_length model = VInt 512 ∧
    num_segments model = VInt 2 ∧
    trainable model = VBool true.
Proof.
  intros _. rewrite new_required_only.
  destruct (init_returns (VInt vocabulary_size) num_layers (VInt num_heads)
              (VInt hidden_dim) (VInt intermediate_dim) (VFloat 0.1)
              (VInt 512) (VInt 2) VNone (VBool true)) as [model Hmodel].
  exists model. rewrite Hmodel. split_and!; try done;
    unfold __init__ in Hmodel; simpl in Hmodel; by inversion Hmodel.
Qed.

Lemma defaults_when_omitted_witness :
  ∃ model,
    new (required_only (VInt 1000) (VInt 2) (VInt 2) (VInt 64) (VInt 128))
    = Ok model ∧
    __init__ (VInt 1000) (VInt 2) (VInt 2) (VInt 64) (VInt 128)
      (VFloat 0.1) (VInt 512) (VInt 2) VNone (VBool true)
    = Ok model ∧
    dropout model = VFloat 0.1 ∧
    max_sequence_length model = VInt 512 ∧
    num_segments model = VInt 2 ∧
    trainable model = VBool true.
Proof.
  apply (defaults_when_omitted 1000 2 2 64 128).
  unfold valid_required. split_and!; try lia. by exists 32.
Defined.

End BertFacts.

(** ** Calling a model *)

Module FunctionalFacts.

Section Outputs.
Context {T : Type} `{Backend T}.
Variable training : bool.
Variable feeds : gmap string T.

Local Abbreviation value_of := (value_of training feeds).

(** When every output evaluates, the call returns the dictionary of the
    values, under the keys of [outputs]. *)
Lemma eval_outputs_Ok (outputs : gmap string KTensor) :
  (∀ k t, outputs !! k = Some t → is_Some (value_of t)) →
  ∃ values, eval_outputs training feeds outputs = Ok values ∧
            ∀ k, values !! k = outputs !! k ≫= value_of.
Proof.
  unfold eval_outputs.
  apply (map_fold_weak_ind (λ r (m : gmap string KTensor),
    (∀ k t, m !! k = Some t → is_Some (value_of t)) →
    ∃ values, r = Ok values ∧ ∀ k, values !! k = m !! k ≫= value_of)).
  - intros _. exists ∅. split; [done|]. intros k. by rewrite !lookup_empty.
  - intros i t m r Hi IH Hall.
    destruct IH as (values & -> & Hvalues).
    { intros k t' Hk. apply (Hall k). rewrite lookup_insert_ne; [done|].
      intros ->. congruence. }
    destruct (Hall i t) as [v Hv]; [by rewrite lookup_insert_eq|].
    unfold Functional.value_of in Hv. simpl.
    destruct (eval training feeds t) as [v'|] eqn:Ht; [|done].
    injection Hv as ->. exists (<[i := v]> values). split; [done|].
    intros k. destruct (decide (i = k)) as [->|Hne].
    + rewrite !lookup_insert_eq. simpl. unfold Functional.value_of. by rewrite Ht.
    + rewrite !lookup_insert_ne by done. apply Hvalues.
Qed.

(** A model with the two outputs of [Bert]. *)
Lemma eval_outputs_pair (k1 k2 : string) (t1 t2 : KTensor) (v1 v2 : T) :
  k1 ≠ k2 →
  eval training feeds t1 = Ok v1 →
  eval training feeds t2 = Ok v2 →
  eval_outputs training feeds {[ k1 := t1; k2 := t2 ]}
  = Ok {[ k1 := v1; k2 := v2 ]}.
Proof.
  intros Hne H1 H2.
  destruct (eval_outputs_Ok {[ k1 := t1; k2 := t2 ]})
    as (values & -> & Hvalues).
  - intros k t. rewrite lookup_insert. case_decide; simplify_eq.
    + intros [= <-]. unfold Functional.value_of. rewrite H1. eauto.
    + rewrite lookup_singleton. case_decide; simplify_eq; [|done].
      intros [= <-]. unfold Functional.value_of. rewrite H2. eauto.
  - f_equal. apply map_eq. intros k. rewrite Hvalues.
    rewrite !lookup_insert. case_decide; simplify_eq.
    + simpl. unfold Functional.value_of. by rewrite H1.
    + rewrite !lookup_singleton. case_decide; simplify_eq; [|done].
      simpl. unfold Functional.value_of. by rewrite H2.
Qed.

(** Conversely, a call that returns has evaluated every output. *)
Lemma eval_outputs_inv (outputs : gmap string KTensor) (values : gmap string T) :
  eval_outputs training feeds outputs = Ok values →
  ∀ k, values !! k = outputs !! k ≫= value_of ∧
       ∀ t, outputs !! k = Some t → is_Some (value_of t).
Proof.
  unfold eval_outputs. revert values.
  apply (map_fold_weak_ind (λ r (m : gmap string KTensor),
    ∀ values, r = Ok values →
    ∀ k, values !! k = m !! k ≫= value_of ∧
         ∀ t, m !! k = Some t → is_Some (value_of t))).
  - intros values [= <-] k. by rewrite !lookup_empty.
  - intros i t m r Hi IH values Hr k.
    destruct r as [m0|]; [|done]. simpl in Hr.
    destruct (eval training feeds t) as [v|] eqn:Ht; [|done].
    injection Hr as <-.
    destruct (IH m0 eq_refl k) as [Hk Hsome].
    destruct (decide (i = k)) as [->|Hne].
    + rewrite !lookup_insert_eq. simpl. unfold Functional.value_of at 1. rewrite Ht.
      split; [done|]. intros t' [= <-]. unfold Functional.value_of. rewrite Ht. eauto.
    + by rewrite !lookup_insert_ne.
Qed.

End Outputs.

End FunctionalFacts.

(** ** The graph [Bert.__init__] assembles *)

Module GraphFacts.
Import BertModels Graph.

Section Graph.
Variables vocabulary_size num_heads hidden_dim intermediate_dim dropout
  max_sequence_length num_segments name trainable : PyVal.

Local Abbreviation embedding_output :=
  (embedding_output vocabulary_size hidden_dim dropout max_sequence_length
     num_segments).
Local Abbreviation encoder_layer :=
  (encoder_layer num_heads intermediate_dim dropout).
Local Abbreviation stack :=
  (stack vocabulary_size num_heads hidden_dim intermediate_dim dropout
     max_sequence_length num_segments).

Lemma stack_S k :
  stack (S k)
  = ApplyMasked (encoder_layer (Z.of_nat k)) (stack k) padding_mask.
Proof.
  unfold stack. rewrite seq_S, fmap_app, foldl_app. reflexivity.
Qed.

Lemma encoder_blocks_stack k :
  encoder_blocks (stack k)
  = (λ i : nat, (encoder_layer (Z.of_nat i), stack i, padding_mask))
      <$> seq 0 k.
Proof.
  induction k as [|k IH]; [reflexivity|].
  rewrite stack_S, seq_S, fmap_app. simpl. by rewrite IH.
Qed.

Lemma below_encoder_blocks_stack k :
  below_encoder_blocks (stack k) = embedding_output.
Proof.
  induction k as [|k IH]; [reflexivity|]. by rewrite stack_S.
Qed.

(** What [__init__] returns for an integer [num_layers]. *)
Lemma init_outputs (num_layers : Z) model :
  __init__ vocabulary_size (VInt num_layers) num_heads hidden_dim
    intermediate_dim dropout max_sequence_length num_segments name trainable
  = Ok model →
  outputs model
  = {[ "sequence_output" := stack (Z.to_nat num_layers);
       "pooled_output" :=
         Apply (Dense hidden_dim (TruncatedNormal 0.02)
                  (ActivationName "tanh") "pooled_dense")
               (Subscript (stack (Z.to_nat num_layers)) 0) ]}.
Proof. intros [= <-]. reflexivity. Qed.

Lemma init_graph (num_layers : Z) :
  ∃ model,
    __init__ vocabulary_size (VInt num_layers) num_heads hidden_dim
      intermediate_dim dropout max_sequence_length num_segments name trainable
    = Ok model ∧
    outputs model !! "sequence_output" = Some (stack (Z.to_nat num_layers)) ∧
    outputs model !! "pooled_output"
    = Some (Apply (Dense hidden_dim (TruncatedNormal 0.02)
                     (ActivationName "tanh") "pooled_dense")
                  (Subscript (stack (Z.to_nat num_layers)) 0)) ∧
    cls_token_index model = 0.
Proof.
  destruct (BertFacts.init_returns vocabulary_size num_layers num_heads
              hidden_dim intermediate_dim dropout max_sequence_length
              num_segments name trainable) as [model Hmodel].
  exists model. split; [done|].
  rewrite (init_outputs _ _ Hmodel). injection Hmodel as <-. done.
Qed.

Lemma encoder_layer_inj : Inj (=) (=) (λ i : nat, encoder_layer (Z.of_nat i)).
Proof.
  intros i j Heq. unfold encoder_layer in Heq. simplify_eq/=.
  by apply Nat2Z.inj, (inj pretty).
Qed.

(** C7.  The tensor the encoder blocks start from is the dropout layer
    (rate [dropout]) on the layer normalization (last axis, epsilon 1e-12)
    of the [Add] of three embeddings: the token embedding with
    [vocabulary_size] entries, the position embedding (capacity
    [max_sequence_length]) applied to the token embedding, whose sequence
    length it follows, and the segment embedding with [num_segments]
    entries.  In every backend and for every batch its value is computed
    in that order, the dropout layer being run in the mode the model is
    called in. *)
Theorem embedding_composition (num_layers : Z) :
  ∃ model sequence_output,
    __init__ vocabulary_size (VInt num_layers) num_heads hidden_dim
      intermediate_dim dropout max_sequence_length num_segments name trainable
    = Ok model ∧
    outputs model !! "sequence_output" = Some sequence_output ∧
    let token :=
      Apply (Embedding vocabulary_size hidden_dim (TruncatedNormal 0.02)
               "token_embedding")
            (Input [None] "int32" "token_ids") in
    let position :=
      Apply (PositionEmbedding (TruncatedNormal 0.02) max_sequence_length
               "position_embedding") token in
    let segment :=
      Apply (Embedding num_segments hidden_dim (TruncatedNormal 0.02)
               "segment_embedding")
            (Input [None] "int32" "segment_ids") in
    let norm := LayerNormalization "embeddings_layer_norm" (-1) 1e-12
                  "float32" in
    below_encoder_blocks sequence_output
    = Apply (Dropout dropout "embeddings_dropout")
        (Apply norm (ApplyTuple Add token position segment)) ∧
    ∀ (T : Type) (backend : Backend T) (training : bool)
      (batch : gmap string T),
      eval training batch (below_encoder_blocks sequence_output)
      = (tok ← eval training batch token;
         pos ← apply_layer (PositionEmbedding (TruncatedNormal 0.02)
                              max_sequence_length "position_embedding")
                 training [tok] None;
         seg ← eval training batch segment;
         sum ← apply_layer Add training [tok; pos; seg] None;
         normed ← apply_layer norm training [sum] None;
         apply_layer (Dropout dropout "embeddings_dropout") training
           [normed] None).
Proof.
  destruct (init_graph num_layers) as (model & Hmodel & Hseq & _).
  exists model, (stack (Z.to_nat num_layers)).
  split; [done|]. split; [done|]. simpl.
  rewrite below_encoder_blocks_stack. split; [reflexivity|].
  intros T backend training batch. simpl.
  destruct (getitem batch "token_ids") as [ids|]; [|done]. simpl.
  destruct (feed [None] "int32" ids) as [fed|]; [|done]. simpl.
  destruct (apply_layer (Embedding vocabulary_size hidden_dim _ _) training
              [fed] None) as [tok|]; [|done]. simpl.
  destruct (apply_layer (PositionEmbedding _ _ _) training [tok] None)
    as [pos|]; [|done]. simpl.
  destruct (getitem batch "segment_ids") as [segs|]; [|done]. simpl.
  destruct (feed [None] "int32" segs) as [fed'|]; [|done]. simpl.
  destruct (apply_layer (Embedding num_segments hidden_dim _ _) training
              [fed'] None) as [seg|]; [|done]. simpl.
  destruct (apply_layer Add training [tok; pos; seg] None) as [sum|];
    [|done]. simpl.
  reflexivity.
Qed.

(** C8.  The sequence output ends in exactly [num_layers] encoder blocks.
    Block [i] is its own layer, named [transformer_layer_i], with
    [num_heads] heads, feed-forward width [intermediate_dim] and the
    approximate GELU; its mask is the [padding_mask] input; block 0 is
    applied to the embedding output and block [i+1] to the output of
    block [i]. *)
Theorem encoder_stack (num_layers : Z) :
  0 ≤ num_layers →
  ∃ model sequence_output,
    __init__ vocabulary_size (VInt num_layers) num_heads hidden_dim
      intermediate_dim dropout max_sequence_length num_segments name trainable
    = Ok model ∧
    outputs model !! "sequence_output" = Some sequence_output ∧
    Z.of_nat (length (encoder_blocks sequence_output)) = num_layers ∧
    below_encoder_blocks sequence_output = embedding_output ∧
    NoDup ((λ b, b.1.1) <$> encoder_blocks sequence_output) ∧
    ∀ (i : nat) block,
      encoder_blocks sequence_output !! i = Some block →
      block.1.1
      = TransformerEncoder num_heads intermediate_dim (GeluLambda true)
          dropout (TruncatedNormal 0.02)
          ("transformer_layer_" +:+ pretty (Z.of_nat i)) ∧
      block.2 = Input [None] "int32" "padding_mask" ∧
      (i = 0%nat → block.1.2 = embedding_output) ∧
      (∀ j previous, i = S j →
         encoder_blocks sequence_output !! j = Some previous →
         block.1.2 = block_output previous).
Proof.
  intros Hn.
  destruct (init_graph num_layers) as (model & Hmodel & Hseq & _).
  exists model, (stack (Z.to_nat num_layers)).
  split; [done|]. split; [done|].
  rewrite encoder_blocks_stack, below_encoder_blocks_stack.
  split_and!.
  - rewrite length_fmap, length_seq. lia.
  - done.
  - rewrite <- list_fmap_compose.
    apply NoDup_fmap_2; [|apply NoDup_seq].
    intros i j Heq. by apply encoder_layer_inj.
  - intros i block Hi.
    apply list_lookup_fmap_Some in Hi as (i' & -> & Hi').
    apply lookup_seq in Hi' as [-> Hlt]. simpl.
    split_and!; try done.
    + by intros ->.
    + intros j previous -> Hj.
      apply list_lookup_fmap_Some in Hj as (j' & -> & Hj').
      apply lookup_seq in Hj' as [-> _]. simpl.
      unfold block_output. simpl. apply stack_S.
Qed.

(** C6.  The sequence output is the output of the last encoder block as it
    is, and the pooled output is the [tanh] dense layer of [hidden_dim]
    units on the slice at index [cls_token_index = 0] of the sequence axis
    of that output; a call returns the values of these two tensors. *)
Theorem output_heads (num_layers : Z) :
  0 < num_layers →
  ∃ model sequence_output last_block,
    __init__ vocabulary_size (VInt num_layers) num_heads hidden_dim
      intermediate_dim dropout max_sequence_length num_segments name trainable
    = Ok model ∧
    outputs model !! "sequence_output" = Some sequence_output ∧
    last (encoder_blocks sequence_output) = Some last_block ∧
    sequence_output = block_output last_block ∧
    cls_token_index model = 0 ∧
    let pooled_dense :=
      Dense hidden_dim (TruncatedNormal 0.02) (ActivationName "tanh")
        "pooled_dense" in
    outputs model !! "pooled_output"
    = Some (Apply pooled_dense
              (Subscript sequence_output (cls_token_index model))) ∧
    ∀ (T : Type) (backend : Backend T) (training : bool)
      (batch values : gmap string T),
      call model training batch = Ok values →
      ∃ hidden pooled,
        eval training batch (block_output last_block) = Ok hidden ∧
        values !! "sequence_output" = Some hidden ∧
        (cls ← subscript hidden 0;
         apply_layer pooled_dense training [cls] None) = Ok pooled ∧
        values !! "pooled_output" = Some pooled.
Proof.
  intros Hn.
  destruct (init_graph num_layers) as (model & Hmodel & Hseq & Hpooled & Hcls).
  destruct (Z.to_nat num_layers) as [|k] eqn:Hk; [lia|].
  exists model, (stack (S k)),
    (encoder_layer (Z.of_nat k), stack k, padding_mask).
  split; [done|]. split; [done|]. cbv zeta. split_and!.
  - rewrite encoder_blocks_stack, seq_S, fmap_app. apply last_snoc.
  - apply stack_S.
  - done.
  - by rewrite Hcls.
  - intros T backend training batch values Hcall. unfold call in Hcall.
    pose proof (FunctionalFacts.eval_outputs_inv _ _ _ _ Hcall) as Hinv.
    destruct (Hinv "sequence_output") as [Hvs _].
    destruct (Hinv "pooled_output") as [Hvp Hsome].
    rewrite Hseq in Hvs. rewrite Hpooled in Hvp.
    destruct (Hsome _ Hpooled) as [pooled Hpooled_value].
    simpl in Hvs, Hvp.
    rewrite Hpooled_value in Hvp.
    unfold value_of in Hvs, Hpooled_value.
    simpl in Hpooled_value.
    replace (block_output (encoder_layer (Z.of_nat k), stack k, padding_mask))
      with (stack (S k)) by apply stack_S.
    destruct (eval training batch (stack (S k))) as [hidden|] eqn:Hhidden;
      [|done].
    exists hidden, pooled. split_and!; try done.
    simpl in Hpooled_value.
    destruct (_ ≫= _) as [p|]; [|done]. by injection Hpooled_value as ->.
Qed.

End Graph.

End GraphFacts.

(** ** The shapes of the outputs *)

Module ShapeFacts.
Import BertModels Configs Graph GraphFacts.

Lemma positive_int_pos n : 0 < n → positive_int (VInt n) = Some n.
Proof. intros Hn. simpl. by apply Z.ltb_lt in Hn as ->. Qed.

Section Shapes.
Variables vocabulary_size num_layers num_heads hidden_dim intermediate_dim
  max_sequence_length num_segments : Z.
Variable dropout : Q.
Variables name trainable : PyVal.
Variable training : bool.
Variables batch seq_len : Z.

Hypothesis valid :
  valid_config vocabulary_size num_layers num_heads hidden_dim
    intermediate_dim dropout max_sequence_length num_segments.
Hypothesis seq_len_range : 1 ≤ seq_len ≤ max_sequence_length.

Let feeds : gmap string Shape :=
  input_batch [batch; seq_len] [batch; seq_len] [batch; seq_len].

Lemma eval_inputs :
  eval training feeds token_ids = Ok [batch; seq_len] ∧
  eval training feeds segment_ids = Ok [batch; seq_len] ∧
  eval training feeds padding_mask = Ok [batch; seq_len].
Proof. done. Qed.

Lemma eval_token_embedding :
  eval training feeds
    (token_embedding_node (VInt vocabulary_size) (VInt hidden_dim))
  = Ok [batch; seq_len; hidden_dim].
Proof.
  destruct valid as ((Hv & _ & _ & Hh & _ & _) & _).
  destruct eval_inputs as (Htok & _ & _).
  unfold token_embedding_node. cbn [eval]. rewrite Htok. simpl.
  apply Z.ltb_lt in Hv as ->. by apply Z.ltb_lt in Hh as ->.
Qed.

Lemma eval_position_embedding :
  eval training feeds
    (position_embedding_node (VInt vocabulary_size) (VInt hidden_dim)
       (VInt max_sequence_length))
  = Ok [batch; seq_len; hidden_dim].
Proof.
  unfold position_embedding_node. cbn [eval].
  rewrite eval_token_embedding. simpl.
  by replace (seq_len <=? max_sequence_length) with true
    by (symmetry; apply Z.leb_le; lia).
Qed.

Lemma eval_segment_embedding :
  eval training feeds
    (segment_embedding_node (VInt hidden_dim) (VInt num_segments))
  = Ok [batch; seq_len; hidden_dim].
Proof.
  destruct valid as ((_ & _ & _ & Hh & _ & _) & _ & _ & _ & Hs).
  destruct eval_inputs as (_ & Hseg & _).
  unfold segment_embedding_node. cbn [eval]. rewrite Hseg. simpl.
  replace (0 <? num_segments) with true by (symmetry; apply Z.ltb_lt; lia).
  by apply Z.ltb_lt in Hh as ->.
Qed.

Lemma eval_embedding_output :
  eval training feeds
    (embedding_output (VInt vocabulary_size) (VInt hidden_dim)
       (VFloat dropout) (VInt max_sequence_length) (VInt num_segments))
  = Ok [batch; seq_len; hidden_dim].
Proof.
  unfold embedding_output. cbn [eval].
  rewrite eval_token_embedding, eval_position_embedding,
    eval_segment_embedding.
  simpl. unfold shape_eqb. by rewrite bool_decide_eq_true_2.
Qed.

(** Every encoder block keeps the shape. *)
Lemma eval_stack k :
  eval training feeds
    (stack (VInt vocabulary_size) (VInt num_heads) (VInt hidden_dim)
       (VInt intermediate_dim) (VFloat dropout) (VInt max_sequence_length)
       (VInt num_segments) k)
  = Ok [batch; seq_len; hidden_dim].
Proof.
  destruct eval_inputs as (_ & _ & Hmask).
  induction k as [|k IH]; [apply eval_embedding_output|].
  rewrite stack_S. cbn [eval]. rewrite IH, Hmask. simpl.
  by rewrite !Z.eqb_refl.
Qed.

Lemma eval_pooled_output k :
  eval training feeds
    (Apply (Dense (VInt hidden_dim) (TruncatedNormal 0.02)
              (ActivationName "tanh") "pooled_dense")
       (Subscript
          (stack (VInt vocabulary_size) (VInt num_heads) (VInt hidden_dim)
             (VInt intermediate_dim) (VFloat dropout)
             (VInt max_sequence_length) (VInt num_segments) k) 0))
  = Ok [batch; hidden_dim].
Proof.
  destruct valid as ((_ & _ & _ & Hh & _ & _) & _).
  cbn [eval]. rewrite eval_stack. simpl.
  replace (- seq_len <=? 0) with true by (symmetry; apply Z.leb_le; lia).
  replace (0 <? seq_len) with true by (symmetry; apply Z.ltb_lt; lia).
  simpl. by apply Z.ltb_lt in Hh as ->.
Qed.

End Shapes.

End ShapeFacts.

Module CallShapes.
Import BertModels Configs Graph GraphFacts ShapeFacts.

(** C5.  A model built from a valid configuration accepts every batch
    whose three arrays have the shape [[batch, seq_len]] with
    [1 <= seq_len <= max_sequence_length], in either mode, and returns a
    sequence output of shape [[batch, seq_len, hidden_dim]] and a pooled
    output of shape [[batch, hidden_dim]]; one model serves every such
    sequence length. *)
Theorem call_shapes
    (vocabulary_size num_layers num_heads hidden_dim intermediate_dim : Z)
    (dropout : Q) (max_sequence_length num_segments : Z)
    (name trainable : PyVal) :
  valid_config vocabulary_size num_layers num_heads hidden_dim
    intermediate_dim dropout max_sequence_length num_segments →
  ∃ model,
    __init__ (VInt vocabulary_size) (VInt num_layers) (VInt num_heads)
      (VInt hidden_dim) (VInt intermediate_dim) (VFloat dropout)
      (VInt max_sequence_length) (VInt num_segments) name trainable
    = Ok model ∧
    ∀ (training : bool) (batch seq_len : Z),
      0 ≤ batch →
      1 ≤ seq_len ≤ max_sequence_length →
      call model training
        (input_batch [batch; seq_len] [batch; seq_len] [batch; seq_len])
      = Ok {[ "sequence_output" := [batch; seq_len; hidden_dim];
              "pooled_output" := [batch; hidden_dim] ]}.
Proof.
  intros Hvalid.
  destruct (BertFacts.init_returns (VInt vocabulary_size) num_layers
              (VInt num_heads) (VInt hidden_dim) (VInt intermediate_dim)
              (VFloat dropout) (VInt max_sequence_length) (VInt num_segments)
              name trainable) as [model Hmodel].
  exists model. split; [done|].
  intros training batch seq_len _ Hseq. unfold call.
  rewrite (init_outputs _ _ _ _ _ _ _ _ _ _ _ Hmodel).
  apply FunctionalFacts.eval_outputs_pair; [done| |].
  - by eapply eval_stack.
  - by eapply eval_pooled_output.
Qed.

(** The model and the three sequence lengths of
    [test_variable_sequence_length_call_bert]. *)
Lemma call_shapes_witness :
  ∃ model,
    __init__ (VInt 1000) (VInt 2) (VInt 2) (VInt 64) (VInt 128) (VFloat 0.1)
      (VInt 128) (VInt 2) (VStr "encoder") (VBool true) = Ok model ∧
    call model false (input_batch [8; 25] [8; 25] [8; 25])
    = Ok {[ "sequence_output" := [8; 25; 64]; "pooled_output" := [8; 64] ]} ∧
    call model false (input_batch [8; 50] [8; 50] [8; 50])
    = Ok {[ "sequence_output" := [8; 50; 64]; "pooled_output" := [8; 64] ]} ∧
    call model false (input_batch [8; 75] [8; 75] [8; 75])
    = Ok {[ "sequence_output" := [8; 75; 64]; "pooled_output" := [8; 64] ]}.
Proof.
  destruct (call_shapes 1000 2 2 64 128 0.1 128 2 (VStr "encoder")
              (VBool true)) as (model & Hmodel & Hcall).
  { unfold valid_config, valid_required.
    split_and!; try lia; try done. by exists 32. }
  exists model. split; [exact Hmodel|].
  split_and!; apply Hcall; lia.
Defined.

(** Outside that range the same model raises: a sequence longer than
    [max_sequence_length] is refused by the position embedding, and an
    empty sequence has no index 0 to pool. *)
Example call_too_long :
  ∃ model,
    new test_kwargs = Ok model ∧
    call model false (input_batch [8; 129] [8; 129] [8; 129])
    = Err (ValueError "sequence length exceeds max_sequence_length").
Proof. eexists. split; reflexivity. Qed.

Example call_empty_sequence :
  ∃ model,
    new test_kwargs = Ok model ∧
    call model false (input_batch [8; 0] [8; 0] [8; 0])
    = Err (IndexError "slice index out of bounds").
Proof. eexists. split; reflexivity. Qed.

End CallShapes.

Module GraphWitnesses.
Import BertModels Configs Graph GraphFacts ShapeFacts.

(** The model of [BertTest.setUp] has two encoder blocks. *)
Lemma encoder_stack_witness :
  ∃ model sequence_output,
    __init__ (VInt 1000) (VInt 2) (VInt 2) (VInt 64) (VInt 128) (VFloat 0.1)
      (VInt 128) (VInt 2) (VStr "encoder") (VBool true) = Ok model ∧
    outputs model !! "sequence_output" = Some sequence_output ∧
    Z.of_nat (length (encoder_blocks sequence_output)) = 2 ∧
    ∀ block, encoder_blocks sequence_output !! 1%nat = Some block →
      block.1.1
      = TransformerEncoder (VInt 2) (VInt 128) (GeluLambda true) (VFloat 0.1)
          (TruncatedNormal 0.02) "transformer_layer_1".
Proof.
  destruct (encoder_stack (VInt 1000) (VInt 2) (VInt 64) (VInt 128)
              (VFloat 0.1) (VInt 128) (VInt 2) (VStr "encoder") (VBool true) 2)
    as (model & sequence_output & Hmodel & Hseq & Hlen & _ & _ & Hblocks);
    [lia|].
  exists model, sequence_output. split_and!; try done.
  intros block Hblock. by destruct (Hblocks 1%nat block Hblock) as [-> _].
Defined.

(** The outputs of that model on the batch of the tests, in the shape
    backend. *)
Lemma output_heads_witness :
  ∃ model sequence_output values hidden pooled,
    __init__ (VInt 1000) (VInt 2) (VInt 2) (VInt 64) (VInt 128) (VFloat 0.1)
      (VInt 128) (VInt 2) (VStr "encoder") (VBool true) = Ok model ∧
    outputs model !! "pooled_output"
    = Some (Apply (Dense (VInt 64) (TruncatedNormal 0.02)
                     (ActivationName "tanh") "pooled_dense")
                  (Subscript sequence_output 0)) ∧
    call model false (input_batch [8; 128] [8; 128] [8; 128]) = Ok values ∧
    values !! "sequence_output" = Some hidden ∧
    values !! "pooled_output" = Some pooled ∧
    (cls ← subscript hidden 0;
     apply_layer (Dense (VInt 64) (TruncatedNormal 0.02)
                    (ActivationName "tanh") "pooled_dense") false [cls] None)
    = Ok pooled.
Proof.
  destruct (output_heads (VInt 1000) (VInt 2) (VInt 64) (VInt 128)
              (VFloat 0.1) (VInt 128) (VInt 2) (VStr "encoder") (VBool true) 2)
    as (model & sequence_output & last_block & Hmodel & Hseq & _ & _ & Hcls
        & Hpooled & Hcall); [lia|].
  assert (Hrun : call model false (input_batch [8; 128] [8; 128] [8; 128])
                 = Ok {[ "sequence_output" := [8; 128; 64];
                         "pooled_output" := [8; 64] ]}).
  { injection Hmodel as <-. reflexivity. }
  destruct (Hcall Shape shape_backend false _ _ Hrun)
    as (hidden & pooled & _ & Hhidden & Hdense & Hvalue).
  exists model, sequence_output,
    {[ "sequence_output" := [8; 128; 64]; "pooled_output" := [8; 64] ]},
    hidden, pooled.
  rewrite Hcls in Hpooled. by split_and!.
Defined.

End GraphWitnesses.

(** ** Loading weights *)

Module WeightsFacts.
Import BertModels KerasWorld.

Section Dispatch.
Variable backbone_weight_urls backbone_weight_hashes : gmap string string.
Context {World Params : Type}.
Variable get_file :
  string → string → string → string → World → Result string * World.
Variable Model_load_weights :
  Bert → WeightsArg → World → Params → Result unit * Params.
Variable self : Bert.

(** A string goes through both tables before anything else happens. *)
Lemma load_weights_unregistered s σ :
  ¬ registered backbone_weight_urls backbone_weight_hashes s →
  load_weights backbone_weight_urls backbone_weight_hashes get_file
    Model_load_weights self (WeightsStr s) σ
  = (Err (KeyError s), σ).
Proof.
  intros Hs. unfold registered in Hs.
  unfold load_weights, getitem, lift. simpl.
  unfold mbind, M_bind. simpl.
  destruct (backbone_weight_urls !! s); [|done].
  destruct (backbone_weight_hashes !! s); [|done].
  destruct Hs. eauto.
Qed.

Lemma load_weights_registered name origin file_hash σ :
  backbone_weight_urls !! name = Some origin →
  backbone_weight_hashes !! name = Some file_hash →
  load_weights backbone_weight_urls backbone_weight_hashes get_file
    Model_load_weights self (WeightsStr name) σ
  = match get_file "model.h5" origin (os_path_join "models" name) file_hash
            (world σ) with
    | (Ok path, w) =>
        on_params (Model_load_weights self (WeightsStr path))
          (mkState w (params σ))
    | (Err e, w) => (Err e, mkState w (params σ))
    end.
Proof.
  intros Hurl Hhash. unfold load_weights, getitem, lift.
  rewrite Hurl, Hhash. unfold mbind, M_bind, on_world. simpl.
  by destruct (get_file _ _ _ _ _) as [[path|e] w].
Qed.

Lemma load_weights_not_str p σ :
  load_weights backbone_weight_urls backbone_weight_hashes get_file
    Model_load_weights self (WeightsPath p) σ
  = on_params (Model_load_weights self (WeightsPath p)) σ.
Proof. reflexivity. Qed.

End Dispatch.

Lemma example_fetch_uncased :
  keras_get_file example_hash "model.h5"
    "https://example.org/bert_base_uncased.h5"
    (os_path_join "models" "bert_base_uncased") "h(uncased-weights)"
    (world example_state)
  = (Ok "~/.keras/models/bert_base_uncased/model.h5",
     mkFileSystem (remote example_fs)
       (<["~/.keras/models/bert_base_uncased/model.h5" := "uncased-weights"]>
          (disk example_fs))).
Proof. reflexivity. Qed.

Lemma example_fetch_cased :
  keras_get_file example_hash "model.h5"
    "https://example.org/bert_base_cased.h5"
    (os_path_join "models" "bert_base_cased") "h(cased-weights)"
    (world example_state)
  = (Err (ValueError "Incomplete or corrupted file detected"),
     mkFileSystem (remote example_fs)
       (<["~/.keras/models/bert_base_cased/model.h5" := "tampered"]>
          (disk example_fs))).
Proof. reflexivity. Qed.

End WeightsFacts.

Module LoadWeights.
Import BertModels Configs KerasWorld WeightsFacts.

(** C2, as the code has it.  [load_weights] tells a preset name from a file
    by the type of its argument.  A string that both tables have is handed
    to [get_file] with the registered URL, the cache directory
    [models/<name>] and the registered hash; when [get_file] raises, the
    error is that of [load_weights] and the parameters are as before; when
    it returns a path, the weights are loaded from it.  A string that the
    tables do not have raises [KeyError] before anything is fetched or
    written, also when it is the path of a file.  An argument that is not
    a string is loaded directly, with no hash check. *)
Theorem load_weights_dispatch
    (backbone_weight_urls backbone_weight_hashes : gmap string string)
    {World Params : Type}
    (get_file :
       string → string → string → string → World → Result string * World)
    (Model_load_weights :
       Bert → WeightsArg → World → Params → Result unit * Params)
    (self : Bert) (σ : State World Params) :
  (∀ name origin file_hash,
     backbone_weight_urls !! name = Some origin →
     backbone_weight_hashes !! name = Some file_hash →
     ∃ fetched w,
       get_file "model.h5" origin (os_path_join "models" name) file_hash
         (world σ) = (fetched, w) ∧
       load_weights backbone_weight_urls backbone_weight_hashes get_file
         Model_load_weights self (WeightsStr name) σ
       = match fetched with
         | Ok path =>
             on_params (Model_load_weights self (WeightsStr path))
               (mkState w (params σ))
         | Err e => (Err e, mkState w (params σ))
         end) ∧
  (∀ s, ¬ registered backbone_weight_urls backbone_weight_hashes s →
     load_weights backbone_weight_urls backbone_weight_hashes get_file
       Model_load_weights self (WeightsStr s) σ
     = (Err (KeyError s), σ)) ∧
  (∀ p,
     load_weights backbone_weight_urls backbone_weight_hashes get_file
       Model_load_weights self (WeightsPath p) σ
     = on_params (Model_load_weights self (WeightsPath p)) σ).
Proof.
  split_and!.
  - intros name origin file_hash Hurl Hhash.
    rewrite (load_weights_registered _ _ _ _ _ _ _ _ _ Hurl Hhash).
    destruct (get_file _ _ _ _ _) as [fetched w]. by exists fetched, w.
  - intros s Hs. by apply load_weights_unregistered.
  - intros p. apply load_weights_not_str.
Qed.

(** In the example world: the preset whose artifact has the registered
    hash is loaded from the cache directory of its name; the preset whose
    artifact has another hash raises and leaves the parameters as they
    were; a string that is no preset raises [KeyError]; a path object is
    loaded directly. *)
Lemma load_weights_dispatch_witness :
  ∃ self,
    new test_kwargs = Ok self ∧
    (∃ fs, example_load_weights self (WeightsStr "bert_base_uncased")
             example_state
           = (Ok (), mkState fs "uncased-weights") ∧
           disk fs !! "~/.keras/models/bert_base_uncased/model.h5"
           = Some "uncased-weights") ∧
    (∃ fs, example_load_weights self (WeightsStr "bert_base_cased")
             example_state
           = (Err (ValueError "Incomplete or corrupted file detected"),
              mkState fs "initial-weights")) ∧
    example_load_weights self (WeightsStr "bert_base_clowntown") example_state
    = (Err (KeyError "bert_base_clowntown"), example_state) ∧
    example_load_weights self (WeightsPath "weights.h5") example_state
    = (Ok (), mkState example_fs "local-weights").
Proof.
  eexists. split; [vm_compute; reflexivity|].
  match goal with |- context [example_load_weights ?m] => set (self := m) end.
  destruct (load_weights_dispatch example_urls example_hashes
              (keras_get_file example_hash) keras_Model_load_weights self
              example_state) as (Hreg & Hunreg & Hpath).
  unfold example_load_weights. split_and!.
  - destruct (Hreg "bert_base_uncased" _ _ eq_refl eq_refl)
      as (fetched & w & Hfetch & ->).
    rewrite example_fetch_uncased in Hfetch. injection Hfetch as <- <-.
    eexists. split; reflexivity.
  - destruct (Hreg "bert_base_cased" _ _ eq_refl eq_refl)
      as (fetched & w & Hfetch & ->).
    rewrite example_fetch_cased in Hfetch. injection Hfetch as <- <-.
    eexists. reflexivity.
  - apply Hunreg. unfold registered. intros [[url Hurl] _].
    vm_compute in Hurl. discriminate Hurl.
  - rewrite Hpath. reflexivity.
Defined.

(** C2 as stated does not hold: a file path that is a string and no preset
    name is not loaded directly.  The file [weights.h5] is on disk and the
    library call that is given it loads it, yet [load_weights] raises
    [KeyError] and loads nothing. *)
Lemma load_weights_string_path_counterexample :
  ¬ (∀ (self : Bert) (source : string) (σ : State FileSystem string),
       ¬ registered example_urls example_hashes source →
       example_load_weights self (WeightsStr source) σ
       = on_params (keras_Model_load_weights self (WeightsStr source)) σ).
Proof.
  intros Hclaim.
  destruct (BertFacts.init_returns (VInt 1000) 2 (VInt 2) (VInt 64)
              (VInt 128) (VFloat 0.1) (VInt 128) (VInt 2) (VStr "encoder")
              (VBool true)) as [self _].
  specialize (Hclaim self "weights.h5" example_state).
  assert (Hloaded :
    on_params (keras_Model_load_weights self (WeightsStr "weights.h5"))
      example_state = (Ok (), mkState example_fs "local-weights"))
    by reflexivity.
  assert (Hraised :
    example_load_weights self (WeightsStr "weights.h5") example_state
    = (Err (KeyError "weights.h5"), example_state)) by reflexivity.
  rewrite Hloaded, Hraised in Hclaim.
  assert (Hnot : ¬ registered example_urls example_hashes "weights.h5").
  { intros [[url Hurl] _]. vm_compute in Hurl. discriminate Hurl. }
  specialize (Hclaim Hnot). discriminate Hclaim.
Qed.

End LoadWeights.

(** ** Construction of the preset model *)

Module BertBaseFacts.
Import BertModels BertBaseModel Configs.

(** C3.  Constructing [BertBase] with neither [vocabulary_size] nor
    [weights] raises the configuration error, and so does constructing it
    with a registered [weights] preset and a [vocabulary_size] that
    conflicts with the one of the preset; neither call returns a model. *)
Theorem BertBase_vocabulary_or_weights
    (backbone_configs : gmap string (gmap string PyVal))
    (base_config : gmap string PyVal) (name : PyVal) :
  (∃ msg, BertBase backbone_configs base_config None None name
          = Err (ValueError msg)) ∧
  (∀ weights vocabulary_size config,
     backbone_configs !! weights = Some config →
     conflicting vocabulary_size config = true →
     ∃ msg, BertBase backbone_configs base_config (Some weights)
              (Some vocabulary_size) name
            = Err (ValueError msg)).
Proof.
  split.
  - eexists. reflexivity.
  - intros weights vocabulary_size config Hconfig Hconflict.
    unfold BertBase. rewrite Hconfig, Hconflict. eexists. reflexivity.
Qed.

(** The two calls of [test_bert_base_vocab_error]. *)
Lemma BertBase_vocabulary_or_weights_witness :
  is_ok (BertBase example_configs ∅ None None (VStr "encoder"))
  = false ∧
  is_ok (BertBase example_configs ∅ (Some "bert_base_uncased")
           (Some 1000) (VStr "encoder"))
  = false.
Proof.
  destruct (BertBase_vocabulary_or_weights example_configs ∅
              (VStr "encoder")) as [[msg ->] Hboth].
  split; [reflexivity|].
  destruct (Hboth "bert_base_uncased" 1000 example_config
              eq_refl eq_refl) as [msg' ->].
  reflexivity.
Defined.

End BertBaseFacts.

(** ** Sequencing *)

Module EffectsFacts.

Lemma M_bind_unfold {S A B} (m : M S A) (k : A → M S B) (σ : S) :
  (m ≫= k) σ
  = match m σ with
    | (Ok a, σ') => k a σ'
    | (Err e, σ') => (Err e, σ')
    end.
Proof. reflexivity. Qed.

End EffectsFacts.

(** ** The copy step of the packaging script *)

Module PipBuildFacts.
Import PipBuild Trees.

(** [str_contains] is the substring test. *)
Lemma prefix_spec p s :
  String.prefix p s = true ↔ ∃ rest, s = p +:+ rest.
Proof.
  revert s. induction p as [|c p IH]; intros s.
  - split; [|by destruct s]. intros _. exists s. reflexivity.
  - destruct s as [|c' s]; [split; [done | by intros [? ?]]|].
    simpl. destruct (Ascii.ascii_dec c c') as [->|Hne].
    + rewrite IH. split; intros [rest Hrest]; exists rest.
      * rewrite Hrest. reflexivity.
      * change (String c' s = String c' (p +:+ rest)) in Hrest.
        by injection Hrest.
    + split; [done|]. intros [rest Hrest].
      change (String c' s = String c (p +:+ rest)) in Hrest.
      injection Hrest as -> _. done.
Qed.

Lemma str_contains_spec needle haystack :
  str_contains needle haystack = true
  ↔ ∃ before after, haystack = before +:+ needle +:+ after.
Proof.
  induction haystack as [|c haystack IH].
  - change (str_contains needle "")
      with (String.prefix needle "" || false).
    rewrite orb_false_r, prefix_spec. split.
    + intros [rest Hrest]. by exists "", rest.
    + intros ([|? ?] & after & Hafter); [by exists after | done].
  - change (str_contains needle (String c haystack))
      with (String.prefix needle (String c haystack)
            || str_contains needle haystack).
    rewrite orb_true_iff, prefix_spec, IH. split.
    + intros [[rest Hrest] | (before & after & ->)].
      * by exists "", rest.
      * by exists (String c before), after.
    + intros ([|c' before] & after & Hafter).
      * left. by exists after.
      * right.
        change (String c haystack
                = String c' (before +:+ needle +:+ after)) in Hafter.
        injection Hafter as -> ->. by exists before, after.
Qed.

(** Induction on a tree with the hypothesis for every entry of a
    directory. *)
Lemma Entry_forall_ind (P : Entry → Prop) :
  (∀ n content, P (File n content)) →
  (∀ n entries, Forall P entries → P (Dir n entries)) →
  ∀ e, P e.
Proof.
  intros Hfile Hdir. fix IH 1. intros [n content | n entries].
  - apply Hfile.
  - apply Hdir. induction entries as [|e entries IHentries].
    + constructor.
    + constructor; [apply IH | apply IHentries].
Qed.

Lemma elem_of_ignore_files src names n :
  n ∈ ignore_files src names ↔ n ∈ names ∧ str_contains "_test" n = true.
Proof.
  unfold ignore_files. rewrite !list_elem_of_In, filter_In. done.
Qed.

(** Every path of an entry starts with its name. *)
Lemma entry_files_head e path :
  path ∈ entry_files e → ∃ rest, path = entry_name e :: rest.
Proof.
  destruct e as [n content | n entries]; simpl.
  - intros ->%list_elem_of_singleton. by exists [].
  - intros (rest & -> & _)%list_elem_of_fmap. by exists rest.
Qed.

Lemma filter_clean_entry_files e :
  List.filter clean (entry_files e)
  = if str_contains "_test" (entry_name e) then []
    else List.filter (λ path, clean (tail path)) (entry_files e).
Proof.
  assert (Hall : ∀ path, path ∈ entry_files e →
            clean path = negb (str_contains "_test" (entry_name e))
                         && clean (tail path)).
  { intros path [rest ->]%entry_files_head. reflexivity. }
  induction (entry_files e) as [|path paths IH]; simpl.
  - by destruct (str_contains _ _).
  - rewrite (Hall path) by left. rewrite IH by (intros; apply Hall; by right).
    by destruct (str_contains _ _).
Qed.

Lemma filter_fmap_cons n (paths : list (list string)) :
  List.filter (λ path, clean (tail path)) (cons n <$> paths)
  = cons n <$> List.filter clean paths.
Proof.
  induction paths as [|path paths IH]; [done|].
  rewrite fmap_cons. cbn [List.filter tail]. rewrite IH.
  by destruct (clean path).
Qed.

(** What [copytree] keeps of a listing, given what it keeps of each entry. *)
Lemma files_copy_listing copy ignored_names entries :
  (∀ e, e ∈ entries →
     entry_name e ∈ ignored_names
     ↔ str_contains "_test" (entry_name e) = true) →
  Forall (λ e, entry_files (copy e)
               = List.filter (λ path, clean (tail path)) (entry_files e))
         entries →
  files (copy_listing copy ignored_names entries)
  = List.filter clean (files entries).
Proof.
  unfold files, copy_listing.
  induction entries as [|e entries IH]; intros Hignored Hcopy; [done|].
  apply Forall_cons in Hcopy as [He Hentries]. simpl.
  rewrite flat_map_app, List.filter_app, filter_clean_entry_files.
  rewrite IH; [|intros; apply Hignored; by right|done].
  f_equal. case_bool_decide as Hin.
  - apply Hignored in Hin as ->; [done|by left].
  - destruct (str_contains "_test" (entry_name e)) eqn:Hname.
    + destruct Hin. apply Hignored; [by left|done].
    + simpl. by rewrite app_nil_r.
Qed.

Lemma ignore_files_listing src entries e :
  e ∈ entries →
  entry_name e ∈ ignore_files src (entry_name <$> entries)
  ↔ str_contains "_test" (entry_name e) = true.
Proof.
  intros He. rewrite elem_of_ignore_files. split; [by intros [_ ?]|].
  intros Hname. split; [|done]. by apply list_elem_of_fmap_2.
Qed.

Lemma entry_files_copy_entry e :
  ∀ parent,
    entry_files (copy_entry ignore_files parent e)
    = List.filter (λ path, clean (tail path)) (entry_files e).
Proof.
  induction e as [n content | n entries IH] using Entry_forall_ind;
    intros parent; [done|].
  simpl. rewrite filter_fmap_cons. f_equal.
  apply files_copy_listing.
  - intros e. apply ignore_files_listing.
  - eapply Forall_impl; [exact IH|]. intros e He. apply He.
Qed.

(** The files of the copy are the clean files of the source, in the same
    order. *)
Lemma files_copytree src entries :
  files (copytree ignore_files src entries)
  = List.filter clean (files entries).
Proof.
  unfold copytree. apply files_copy_listing.
  - intros e. apply ignore_files_listing.
  - apply Forall_forall. intros e _. apply entry_files_copy_entry.
Qed.

Lemma clean_spec path :
  clean path = true ↔ ∀ n, n ∈ path → str_contains "_test" n = false.
Proof.
  unfold clean. rewrite forallb_forall. split.
  - intros Hall n Hn. apply negb_true_iff, Hall. by apply list_elem_of_In.
  - intros Hall n Hn. apply negb_true_iff, Hall. by apply list_elem_of_In.
Qed.

(** Listings: reading an entry after writing one. *)
Lemma find_entry_name n entries e :
  find_entry n entries = Some e → entry_name e = n.
Proof.
  unfold find_entry. intros [_ He]%find_some. by apply String.eqb_eq.
Qed.

Lemma find_entry_put_entry_eq e entries :
  find_entry (entry_name e) (put_entry e entries) = Some e.
Proof.
  unfold find_entry.
  induction entries as [|e' entries IH]; simpl.
  - by rewrite String.eqb_refl.
  - destruct (String.eqb (entry_name e') (entry_name e)) eqn:Heq; simpl.
    + by rewrite String.eqb_refl.
    + by rewrite Heq.
Qed.

Lemma find_entry_put_entry_ne n e entries :
  n ≠ entry_name e →
  find_entry n (put_entry e entries) = find_entry n entries.
Proof.
  intros Hne. unfold find_entry.
  assert (Hnew : String.eqb (entry_name e) n = false)
    by (apply String.eqb_neq; congruence).
  induction entries as [|e' entries IH]; simpl.
  - by rewrite Hnew.
  - destruct (String.eqb (entry_name e') (entry_name e)) eqn:Heq; simpl.
    + apply String.eqb_eq in Heq. rewrite Hnew, Heq. by rewrite Hnew.
    + by rewrite IH.
Qed.

Lemma copy_package_holds_copy package root root' :
  copy_package package root = (Ok (), root') →
  ∃ source,
    find_entry package root = Some (Dir package source) ∧
    holds_copy package (copytree ignore_files package source) root'.
Proof.
  unfold copy_package. intros Hcopy.
  destruct (find_entry package root) as [[|n source]|] eqn:Hsource;
    try done.
  assert (n = package) as -> by apply (find_entry_name _ _ _ Hsource).
  destruct (listing_or_empty build_directory root) as [build|]; [|done].
  destruct (find_entry package build); [done|].
  injection Hcopy as <-. exists source. split; [done|].
  eexists. split.
  - apply (find_entry_put_entry_eq (Dir build_directory _)).
  - apply (find_entry_put_entry_eq (Dir package _)).
Qed.

Lemma copy_into_keeps package fname content build build' :
  fname ≠ package →
  copy_into fname content build = Ok build' →
  find_entry package build' = find_entry package build.
Proof.
  intros Hne. unfold copy_into.
  destruct (find_entry fname build) as [[|n inner]|] eqn:Hfound.
  - intros [= <-]. by apply find_entry_put_entry_ne.
  - apply find_entry_name in Hfound. simpl in Hfound. subst n.
    destruct (find_entry fname inner) as [[|]|]; intros [= <-];
      by apply find_entry_put_entry_ne.
  - intros [= <-]. by apply find_entry_put_entry_ne.
Qed.

Lemma copy_to_build_holds_copy package copied fname root r root' :
  fname ≠ package →
  copy_to_build fname root = (r, root') →
  holds_copy package copied root → holds_copy package copied root'.
Proof.
  intros Hne Hcopy (build & Hbuild & Hpackage). unfold copy_to_build in Hcopy.
  rewrite Hbuild in Hcopy.
  destruct (find_entry fname root) as [[n content|]|];
    try (injection Hcopy as <- <-; by exists build).
  destruct (copy_into fname content build) as [build'|] eqn:Hinto;
    injection Hcopy as <- <-; [|by exists build].
  exists build'. split.
  - apply (find_entry_put_entry_eq (Dir build_directory _)).
  - by rewrite (copy_into_keeps _ _ _ _ _ Hne Hinto).
Qed.

Lemma mapM_copy_to_build_holds_copy package copied names root r root' :
  package ∉ names →
  mapM copy_to_build names root = (r, root') →
  holds_copy package copied root → holds_copy package copied root'.
Proof.
  revert root r root'.
  induction names as [|fname names IH]; intros root r root' Hnot Hrun Hroot.
  - by injection Hrun as <- <-.
  - apply not_elem_of_cons in Hnot as [Hne Hnot].
    simpl in Hrun. rewrite EffectsFacts.M_bind_unfold in Hrun.
    destruct (copy_to_build fname root) as [[[]|e] root1] eqn:Hstep.
    + rewrite EffectsFacts.M_bind_unfold in Hrun.
      destruct (mapM copy_to_build names root1) as [[done_|e] root2] eqn:Hrest.
      * injection Hrun as <- <-.
        eapply IH; [done|exact Hrest|].
        eapply copy_to_build_holds_copy; [|exact Hstep|done]. congruence.
      * injection Hrun as <- <-.
        eapply IH; [done|exact Hrest|].
        eapply copy_to_build_holds_copy; [|exact Hstep|done]. congruence.
    + injection Hrun as <- <-.
      eapply copy_to_build_holds_copy; [|exact Hstep|done]. congruence.
Qed.

(** C10.  After the copy step the build directory holds a copy of the
    package whose files are the files of the package with no ["_test"] in
    any name on their path: a file whose name contains ["_test"] is not in
    the build tree, nor is anything below a directory whose name does.  The
    setup files copied next to it have no such name either, and an archive
    made of files of that copy contains no file with such a name. *)
Theorem copy_excludes_test_files (package : string) (root root' : list Entry) :
  package ∉ to_copy →
  copy_source_to_build_directory package root = (Ok (), root') →
  ∃ source build copied,
    find_entry package root = Some (Dir package source) ∧
    find_entry build_directory root' = Some (Dir build_directory build) ∧
    find_entry package build = Some (Dir package copied) ∧
    files copied = List.filter clean (files source) ∧
    (∀ path name, path ∈ files copied → name ∈ path →
       str_contains "_test" name = false) ∧
    (∀ fname, fname ∈ to_copy → str_contains "_test" fname = false) ∧
    (∀ wheel : list (list string), wheel ⊆ files copied →
       ∀ path name, path ∈ wheel → name ∈ path →
       str_contains "_test" name = false).
Proof.
  intros Hpackage Hrun. unfold copy_source_to_build_directory in Hrun.
  rewrite EffectsFacts.M_bind_unfold in Hrun.
  destruct (copy_package package root) as [[[]|e] root1] eqn:Hcopy; [|done].
  apply copy_package_holds_copy in Hcopy as (source & Hsource & Hroot1).
  rewrite EffectsFacts.M_bind_unfold in Hrun.
  destruct (mapM copy_to_build to_copy root1) as [[copies|e] root2] eqn:Hsetup;
    [|done].
  injection Hrun as <-.
  destruct (mapM_copy_to_build_holds_copy _ _ _ _ _ _ Hpackage Hsetup Hroot1)
    as (build & Hbuild & Hcopied).
  exists source, build, (copytree ignore_files package source).
  assert (Hclean : ∀ path name,
            path ∈ files (copytree ignore_files package source) →
            name ∈ path → str_contains "_test" name = false).
  { intros path name Hpath Hname. rewrite files_copytree in Hpath.
    apply list_elem_of_In, filter_In in Hpath as [_ Hpath].
    by apply (proj1 (clean_spec path)). }
  split_and!; try done.
  - apply files_copytree.
  - intros fname Hfname. unfold to_copy in Hfname.
    repeat (apply elem_of_cons in Hfname as [->|Hfname]; [reflexivity|]).
    by apply elem_of_nil in Hfname.
  - intros wheel Hwheel path name Hpath. apply Hclean, Hwheel, Hpath.
Qed.

End PipBuildFacts.

Module PipBuildWitness.
Import PipBuild Trees PipBuildFacts.

Lemma example_root_package_not_copied : nlp_package ∉ to_copy.
Proof.
  intros Hin. unfold to_copy in Hin.
  repeat (apply elem_of_cons in Hin as [Hin|Hin]; [discriminate Hin|]).
  by apply elem_of_nil in Hin.
Qed.

Lemma copy_excludes_test_files_witness :
  ∃ root' build copied,
    copy_source_to_build_directory nlp_package example_root = (Ok (), root') ∧
    find_entry build_directory root' = Some (Dir build_directory build) ∧
    find_entry nlp_package build = Some (Dir nlp_package copied) ∧
    files copied = [["models"; "bert"; "bert_models.py"]].
Proof.
  assert (Hrun : ∃ root',
            copy_source_to_build_directory nlp_package example_root
            = (Ok (), root')) by (eexists; vm_compute; reflexivity).
  destruct Hrun as [root' Hrun].
  destruct (copy_excludes_test_files nlp_package example_root root'
              example_root_package_not_copied Hrun)
    as (source & build & copied & Hsource & Hbuild & Hcopied & Hfiles & _).
  exists root', build, copied. split_and!; try done.
  injection Hsource as <-. exact Hfiles.
Defined.

End PipBuildWitness.

(** ** Which calls of the class are accepted *)

Module ConstructionFacts.
Import BertModels Configs GraphReading.

Lemma unexpected_None sig (kwargs : gmap string PyVal) :
  Call.unexpected sig kwargs = None ↔
  ∀ k, is_Some (kwargs !! k) → k ∈ Call.param_names sig.
Proof.
  split.
  - intros Hnone k Hk. destruct (decide (k ∈ Call.param_names sig)); [done|].
    destruct (CallFacts.unexpected_is_Some sig kwargs k Hk) as [k' Hk'];
      [done|congruence].
  - intros Hall. destruct (Call.unexpected sig kwargs) as [k|] eqn:Hk; [|done].
    apply CallFacts.unexpected_Some in Hk as [Hpassed Hnot].
    destruct Hnot. by apply Hall.
Qed.

Lemma init_is_ok v n nh h i d L s nm tr :
  is_ok (__init__ v n nh h i d L s nm tr) = is_integer n.
Proof. unfold __init__. by destruct n. Qed.

Lemma init_error v n nh h i d L s nm tr e :
  __init__ v n nh h i d L s nm tr = Err e → ∃ msg, e = TypeError msg.
Proof. unfold __init__. destruct n; simpl; intros [= <-]; eauto. Qed.

(** In this embedding, where the constructors of the layers take every
    value, calling the class with keywords returns a model exactly when
    every keyword names a parameter, the five parameters without default
    are given, and [num_layers] is an integer; any other call raises
    [TypeError]. *)
Lemma new_returns_iff (kwargs : gmap string PyVal) :
  (is_ok (new kwargs) = true ↔
   (∀ k, is_Some (kwargs !! k) → k ∈ Call.param_names signature) ∧
   (∀ k, k ∈ required_names → is_Some (kwargs !! k)) ∧
   (∃ n, kwargs !! "num_layers" = Some n ∧ is_integer n = true)) ∧
  (∀ e, new kwargs = Err e → ∃ msg, e = TypeError msg).
Proof.
  unfold new, Call.bind_keywords.
  destruct (Call.unexpected signature kwargs) as [k|] eqn:Hunexpected.
  { split; [|intros e [= <-]; eauto]. split; [done|].
    intros (Hall & _). apply unexpected_None in Hall. congruence. }
  pose proof (proj1 (unexpected_None _ _) Hunexpected) as Hall.
  assert (Hreq : ∀ P : string → Prop,
            (∀ k, k ∈ required_names → P k) ↔
            P "vocabulary_size" ∧ P "num_layers" ∧ P "num_heads" ∧
            P "hidden_dim" ∧ P "intermediate_dim").
  { intros P. unfold required_names. split.
    - intros HP.
      split_and!; apply HP; apply (bool_decide_eq_true_1 _); reflexivity.
    - intros (? & ? & ? & ? & ?) k Hk.
      repeat (apply elem_of_cons in Hk as [->|Hk]; [done|]).
      by apply elem_of_nil in Hk. }
  rewrite Hreq. unfold signature, Call.fill.
  destruct (kwargs !! "vocabulary_size") as [v|];
    [|split; [split; [done|intros (_ & ([] & _) & _); done]
             |intros e [= <-]; eauto]].
  destruct (kwargs !! "num_layers") as [n|];
    [|split; [split; [done|intros (_ & (_ & [] & _) & _); done]
             |intros e [= <-]; eauto]].
  destruct (kwargs !! "num_heads") as [nh|];
    [|split; [split; [done|intros (_ & (_ & _ & [] & _) & _); done]
             |intros e [= <-]; eauto]].
  destruct (kwargs !! "hidden_dim") as [h|];
    [|split; [split; [done|intros (_ & (_ & _ & _ & [] & _) & _); done]
             |intros e [= <-]; eauto]].
  destruct (kwargs !! "intermediate_dim") as [i|];
    [|split; [split; [done|intros (_ & (_ & _ & _ & _ & []) & _); done]
             |intros e [= <-]; eauto]].
  destruct (kwargs !! "dropout"), (kwargs !! "max_sequence_length"),
    (kwargs !! "num_segments"), (kwargs !! "name"), (kwargs !! "trainable");
    simpl; rewrite init_is_ok;
    (split; [split; [intros Hn; split_and!; eauto
                    |intros (_ & _ & n' & Heq & Hn); by injection Heq as ->]
            |apply init_error]).
Qed.

(** A call of the class with keywords that returns a model got only
    keywords that name a parameter, all five parameters without default,
    and an integer for [num_layers].  A call with a keyword that names no
    parameter, or without one of the five, raises [TypeError] and builds
    nothing. *)
Theorem new_accepts (kwargs : gmap string PyVal) :
  (is_ok (new kwargs) = true →
   (∀ k, is_Some (kwargs !! k) → k ∈ Call.param_names signature) ∧
   (∀ k, k ∈ required_names → is_Some (kwargs !! k)) ∧
   (∃ n, kwargs !! "num_layers" = Some n ∧ is_integer n = true)) ∧
  (∀ k, (is_Some (kwargs !! k) ∧ k ∉ Call.param_names signature) ∨
        (k ∈ required_names ∧ kwargs !! k = None) →
        ∃ msg, new kwargs = Err (TypeError msg)).
Proof.
  destruct (new_returns_iff kwargs) as [Hiff Herr]. split.
  - apply Hiff.
  - intros k Hk. destruct (new kwargs) as [model|e] eqn:Hnew.
    + assert (Hok : is_ok (new kwargs) = true) by by rewrite Hnew.
      rewrite Hnew in Hok.
      apply Hiff in Hok as (Hnames & Hrequired & _).
      destruct Hk as [[Hpassed Hnot]|[Hin Hmissing]].
      * destruct Hnot. by apply Hnames.
      * destruct (Hrequired k Hin) as [v Hv]. congruence.
    + destruct (Herr e eq_refl) as [msg ->]. by exists msg.
Qed.

End ConstructionFacts.

(** ** More on the graph *)

Module GraphExtras.
Import BertModels Configs Graph GraphReading.

(** What [__init__] stores on the model. *)
Lemma init_fields v n nh h i d L s nm tr model :
  __init__ v n nh h i d L s nm tr = Ok model →
  vocabulary_size model = v ∧ num_layers model = n ∧ num_heads model = nh ∧
  hidden_dim model = h ∧ intermediate_dim model = i ∧ dropout model = d ∧
  max_sequence_length model = L ∧ num_segments model = s ∧
  name model = nm ∧ trainable model = tr.
Proof.
  unfold __init__. destruct (range n) as [layers|]; simpl; [|done].
  intros [= <-]. done.
Qed.

(** The graph does not depend on [name] and [trainable]. *)
Lemma init_graph_irrelevant v n nh h i d L s nm tr nm' tr' model :
  __init__ v n nh h i d L s nm tr = Ok model →
  ∃ model', __init__ v n nh h i d L s nm' tr' = Ok model' ∧
            inputs model' = inputs model ∧ outputs model' = outputs model ∧
            get_config model' = get_config model.
Proof.
  unfold __init__. destruct (range n) as [layers|]; simpl; [|done].
  intros [= <-]. eexists. split; [reflexivity|]. done.
Qed.

(** The dictionary [get_config] returns holds what is needed to build the
    graph again: once the key ["cls_token_index"] is taken out,
    [from_config] returns a model with the same inputs, outputs and
    configuration.  The [name] and [trainable] the model was built with are
    not in the dictionary, and the rebuilt model has the defaults. *)
Theorem get_config_rebuilds_graph
    (backbone_configs : gmap string (gmap string PyVal))
    (v n nh h i d L s nm tr : PyVal) (model : Bert) :
  __init__ v n nh h i d L s nm tr = Ok model →
  get_config model !! "name" = None ∧
  get_config model !! "trainable" = None ∧
  ∃ model',
    from_config backbone_configs
      (ConfigDict (delete "cls_token_index" (get_config model)))
    = Ok model' ∧
    inputs model' = inputs model ∧
    outputs model' = outputs model ∧
    get_config model' = get_config model ∧
    name model' = VNone ∧ trainable model' = VBool true.
Proof.
  intros Hmodel. split; [reflexivity|]. split; [reflexivity|].
  rewrite BertFacts.from_config_without_cls_token_index.
  destruct (init_fields _ _ _ _ _ _ _ _ _ _ _ Hmodel)
    as (-> & -> & -> & -> & -> & -> & -> & -> & _).
  destruct (init_graph_irrelevant _ _ _ _ _ _ _ _ _ _ VNone (VBool true) _
              Hmodel) as (model' & Hmodel' & Hin & Hout & Hcfg).
  destruct (init_fields _ _ _ _ _ _ _ _ _ _ _ Hmodel')
    as (_ & _ & _ & _ & _ & _ & _ & _ & Hname & Htrainable).
  exists model'. by split_and!.
Qed.

Section Graph.
Variables vocabulary_size num_heads hidden_dim intermediate_dim dropout
  max_sequence_length num_segments name trainable : PyVal.

Local Abbreviation embedding_output :=
  (embedding_output vocabulary_size hidden_dim dropout max_sequence_length
     num_segments).
Local Abbreviation encoder_layer :=
  (encoder_layer num_heads intermediate_dim dropout).
Local Abbreviation stack :=
  (stack vocabulary_size num_heads hidden_dim intermediate_dim dropout
     max_sequence_length num_segments).
Local Abbreviation pooled_dense :=
  (Dense hidden_dim (TruncatedNormal 0.02) (ActivationName "tanh")
     "pooled_dense").
Local Abbreviation fixed_layers :=
  (fixed_layers vocabulary_size hidden_dim dropout max_sequence_length
     num_segments).



(** With [num_layers <= 0] the loop does not run.  The model is
    accepted, it has no encoder block, its sequence output is the
    embedding output, and the [padding_mask] input, though declared, is
    read by neither output. *)
Theorem no_encoder_blocks (num_layers : Z) :
  num_layers ≤ 0 →
  ∃ model,
    __init__ vocabulary_size (VInt num_layers) num_heads hidden_dim
      intermediate_dim dropout max_sequence_length num_segments name trainable
    = Ok model ∧
    outputs model !! "sequence_output" = Some embedding_output ∧
    encoder_blocks embedding_output = [] ∧
    outputs model !! "pooled_output"
    = Some (Apply pooled_dense (Subscript embedding_output 0)) ∧
    inputs model !! "padding_mask" = Some (Input [None] "int32" "padding_mask") ∧
    ∀ key t, outputs model !! key = Some t → "padding_mask" ∉ input_names t.
Proof.
  intros Hn.
  destruct (GraphFacts.init_graph vocabulary_size num_heads hidden_dim
              intermediate_dim dropout max_sequence_length num_segments name
              trainable num_layers) as (model & Hmodel & Hseq & Hpooled & _).
  replace (Z.to_nat num_layers) with 0%nat in * by lia.
  exists model. split_and!; try done.
  - injection Hmodel as <-. reflexivity.
  - intros key t Ht.
    rewrite (GraphFacts.init_outputs _ _ _ _ _ _ _ _ _ _ _ Hmodel) in Ht.
    replace (Z.to_nat num_layers) with 0%nat in Ht by lia.
    apply lookup_insert_Some in Ht as [[_ <-]|[_ Ht]].
    + apply (bool_decide_eq_false_1 _). reflexivity.
    + apply lookup_singleton_Some in Ht as [_ <-].
      apply (bool_decide_eq_false_1 _). reflexivity.
Qed.

Lemma fixed_layers_split l :
  l ∈ fixed_layers ↔ l = pooled_dense ∨ l ∈ layers_of embedding_output.
Proof.
  unfold GraphReading.fixed_layers. simpl. set_unfold. tauto.
Qed.

Lemma layers_of_stack k l :
  l ∈ layers_of (stack k) ↔
  l ∈ layers_of embedding_output ∨
  ∃ i : nat, (i < k)%nat ∧ l = encoder_layer (Z.of_nat i).
Proof.
  induction k as [|k IH].
  - change (stack 0) with embedding_output. split; [by left|].
    intros [Hl|(i & Hi & _)]; [done|lia].
  - rewrite GraphFacts.stack_S. simpl.
    rewrite elem_of_cons, elem_of_app, IH. split.
    + intros [->|[[Hl|(i & Hi & ->)]|Hl]].
      * right. exists k. split; [lia|done].
      * by left.
      * right. exists i. split; [lia|done].
      * by apply elem_of_nil in Hl.
    + intros [Hl|(i & Hi & ->)]; [right; left; by left|].
      destruct (decide (i = k)) as [->|Hne]; [by left|].
      right. left. right. exists i. split; [lia|done].
Qed.

Lemma fixed_layer_names : NoDup (layer_name <$> fixed_layers).
Proof.
  unfold GraphReading.fixed_layers. simpl.
  repeat (apply NoDup_cons; split;
          [rewrite ?elem_of_cons, elem_of_nil; intros Hin;
           repeat (destruct Hin as [Hin|Hin]; [discriminate|]); done|]).
  apply NoDup_nil_2.
Qed.

Lemma fixed_layer_is_no_encoder_layer l i :
  l ∈ fixed_layers → layer_name l ≠ layer_name (encoder_layer i).
Proof.
  unfold GraphReading.fixed_layers. intros Hl.
  repeat (apply elem_of_cons in Hl as [->|Hl]);
    try (by apply elem_of_nil in Hl); by intros [=].
Qed.

Lemma encoder_layer_name_inj (i j : Z) :
  layer_name (encoder_layer i) = layer_name (encoder_layer j) → i = j.
Proof. intros Heq. simplify_eq/=. by apply (inj pretty). Qed.

(** Keras refuses a functional model in which two layers share a name.
    The layers of the graph [__init__] builds are the seven it creates
    once and one encoder block for each index below [num_layers]; the
    seven have seven different names, none of which is the name of a
    block, and two blocks of different index have different names. *)
Theorem layer_names_unique (num_layers : Z) :
  ∃ model sequence_output pooled_output,
    __init__ vocabulary_size (VInt num_layers) num_heads hidden_dim
      intermediate_dim dropout max_sequence_length num_segments name trainable
    = Ok model ∧
    outputs model !! "sequence_output" = Some sequence_output ∧
    outputs model !! "pooled_output" = Some pooled_output ∧
    (∀ l, l ∈ layers_of sequence_output ++ layers_of pooled_output ↔
          l ∈ fixed_layers ∨
          ∃ i : nat, (i < Z.to_nat num_layers)%nat ∧
                     l = encoder_layer (Z.of_nat i)) ∧
    length fixed_layers = 7%nat ∧
    NoDup (layer_name <$> fixed_layers) ∧
    (∀ l i, l ∈ fixed_layers →
            layer_name l ≠ layer_name (encoder_layer i)) ∧
    (∀ i j : Z,
       layer_name (encoder_layer i) = layer_name (encoder_layer j) → i = j).
Proof.
  destruct (GraphFacts.init_graph vocabulary_size num_heads hidden_dim
              intermediate_dim dropout max_sequence_length num_segments name
              trainable num_layers) as (model & Hmodel & Hseq & Hpooled & _).
  exists model, (stack (Z.to_nat num_layers)),
    (Apply pooled_dense (Subscript (stack (Z.to_nat num_layers)) 0)).
  split_and!; try done.
  - intros l. simpl.
    rewrite elem_of_app, elem_of_cons, layers_of_stack, fixed_layers_split.
    tauto.
  - apply fixed_layer_names.
  - apply fixed_layer_is_no_encoder_layer.
  - apply encoder_layer_name_inj.
Qed.

End Graph.




End GraphExtras.

(** ** Presets *)

Module PresetFacts.
Import BertModels KerasWorld Recording.

Section FromPreset.
Variable backbone_configs : gmap string (gmap string PyVal).
Variable backbone_weight_urls backbone_weight_hashes : gmap string string.
Context {World Params : Type}.
Variable get_file :
  string → string → string → string → World → Result string * World.
Variable Model_load_weights :
  Bert → WeightsArg → World → Params → Result unit * Params.

(** [from_preset] builds the model before it touches the world.  When the
    name is in no configuration, when the registered configuration is
    rejected, or when the model is built but the name has no URL or no
    hash, it raises and leaves the file system and the parameters as they
    were, and nothing is fetched.  Otherwise its effects are those of
    [load_weights] on the model [from_config] returns, and it returns that
    model exactly when [load_weights] returns. *)
Theorem from_preset_steps (id : string) (σ : State World Params) :
  (backbone_configs !! id = None →
   from_preset backbone_configs backbone_weight_urls backbone_weight_hashes
     get_file Model_load_weights id σ
   = (Err (KeyError id), σ)) ∧
  (∀ e, from_config backbone_configs (ConfigName id) = Err e →
     from_preset backbone_configs backbone_weight_urls backbone_weight_hashes
       get_file Model_load_weights id σ
     = (Err e, σ)) ∧
  (∀ model, from_config backbone_configs (ConfigName id) = Ok model →
     (¬ registered backbone_weight_urls backbone_weight_hashes id →
      from_preset backbone_configs backbone_weight_urls
        backbone_weight_hashes get_file Model_load_weights id σ
      = (Err (KeyError id), σ)) ∧
     ∀ r σ',
       load_weights backbone_weight_urls backbone_weight_hashes get_file
         Model_load_weights model (WeightsStr id) σ = (r, σ') →
       from_preset backbone_configs backbone_weight_urls
         backbone_weight_hashes get_file Model_load_weights id σ
       = (match r with Ok _ => Ok model | Err e => Err e end, σ')).
Proof.
  assert (Herr : ∀ e, from_config backbone_configs (ConfigName id) = Err e →
            from_preset backbone_configs backbone_weight_urls
              backbone_weight_hashes get_file Model_load_weights id σ
            = (Err e, σ)).
  { intros e He. unfold from_preset. rewrite EffectsFacts.M_bind_unfold.
    unfold lift. by rewrite He. }
  assert (Hok : ∀ model r σ',
            from_config backbone_configs (ConfigName id) = Ok model →
            load_weights backbone_weight_urls backbone_weight_hashes get_file
              Model_load_weights model (WeightsStr id) σ = (r, σ') →
            from_preset backbone_configs backbone_weight_urls
              backbone_weight_hashes get_file Model_load_weights id σ
            = (match r with Ok _ => Ok model | Err e => Err e end, σ')).
  { intros model r σ' Hmodel Hload. unfold from_preset.
    rewrite EffectsFacts.M_bind_unfold. unfold lift. rewrite Hmodel.
    rewrite EffectsFacts.M_bind_unfold, Hload. by destruct r. }
  split_and!.
  - intros Hid. apply Herr. unfold from_config, getitem. by rewrite Hid.
  - exact Herr.
  - intros model Hmodel. split.
    + intros Hid.
      apply (Hok model (Err (KeyError id)) σ Hmodel).
      by apply WeightsFacts.load_weights_unregistered.
    + intros r σ'. by apply Hok.
Qed.

End FromPreset.





End PresetFacts.

(** ** More on the copy step *)

Module CopyFacts.
Import PipBuild Trees TreeReading PipBuildFacts.

(** [ignore_files] keeps the order of the names, ignores the directory it
    is called for, and returns exactly the names that have ["_test"]
    somewhere in them, in whatever case the rest is. *)
Theorem ignore_files_spec (directory : string) (filenames : list string) :
  (∀ n, n ∈ ignore_files directory filenames ↔
        n ∈ filenames ∧ ∃ before after, n = before +:+ "_test" +:+ after) ∧
  sublist (ignore_files directory filenames) filenames ∧
  ∀ directory', ignore_files directory' filenames
                = ignore_files directory filenames.
Proof.
  split_and!.
  - intros n. by rewrite elem_of_ignore_files, str_contains_spec.
  - unfold ignore_files. induction filenames as [|f filenames IH]; simpl.
    + constructor.
    + destruct (str_contains "_test" f); by constructor.
  - done.
Qed.

Lemma copy_listing_cons copy ignored_names e entries :
  copy_listing copy ignored_names (e :: entries)
  = (if bool_decide (entry_name e ∈ ignored_names) then [] else [copy e])
    ++ copy_listing copy ignored_names entries.
Proof. reflexivity. Qed.

Lemma entry_name_copy_entry ignore parent e :
  entry_name (copy_entry ignore parent e) = entry_name e.
Proof. by destruct e. Qed.

Lemma entry_names_head e : ∃ below, entry_names e = entry_name e :: below.
Proof. destruct e; simpl; eauto. Qed.

(** The names of a copied listing, given those of each copied entry. *)
Lemma names_copy_listing copy ignored_names entries :
  (∀ e, e ∈ entries →
     entry_name e ∈ ignored_names
     ↔ str_contains "_test" (entry_name e) = true) →
  Forall (λ e, entry_name (copy e) = entry_name e ∧
               ∀ n, n ∈ tail (entry_names (copy e)) →
                    str_contains "_test" n = false) entries →
  ∀ n, n ∈ names (copy_listing copy ignored_names entries) →
       str_contains "_test" n = false.
Proof.
  unfold names.
  induction entries as [|e entries IH]; intros Hignored Hcopy n;
    [by intros ?%elem_of_nil|].
  apply Forall_cons in Hcopy as [[Hname Hbelow] Hentries].
  rewrite copy_listing_cons, flat_map_app, elem_of_app.
  intros [Hn|Hn]; [|apply IH; [intros; apply Hignored; by right|done..]].
  case_bool_decide as Hin; [by apply elem_of_nil in Hn|].
  simpl in Hn. rewrite app_nil_r in Hn.
  destruct (entry_names_head (copy e)) as [below Hnames].
  rewrite Hnames in Hn, Hbelow. apply elem_of_cons in Hn as [->|Hn].
  - rewrite Hname. apply not_true_iff_false. intros Htest.
    apply Hin, Hignored; [by left|done].
  - by apply Hbelow.
Qed.

Lemma names_copy_entry e :
  ∀ parent n,
    n ∈ tail (entry_names (copy_entry ignore_files parent e)) →
    str_contains "_test" n = false.
Proof.
  induction e as [n' content | n' entries IH] using Entry_forall_ind;
    intros parent n; [by intros ?%elem_of_nil|].
  simpl. apply names_copy_listing.
  - intros e. apply ignore_files_listing.
  - eapply Forall_impl; [exact IH|]. intros e He. split.
    + apply entry_name_copy_entry.
    + apply He.
Qed.

(** A listing without ["_test"] in any name is copied as it is. *)
Lemma copy_listing_clean copy ignored_names entries :
  (∀ e, e ∈ entries →
     entry_name e ∈ ignored_names
     ↔ str_contains "_test" (entry_name e) = true) →
  (∀ n, n ∈ names entries → str_contains "_test" n = false) →
  Forall (λ e, (∀ n, n ∈ tail (entry_names e) →
                     str_contains "_test" n = false) → copy e = e) entries →
  copy_listing copy ignored_names entries = entries.
Proof.
  unfold names.
  induction entries as [|e entries IH]; intros Hignored Hclean Hcopy; [done|].
  apply Forall_cons in Hcopy as [He Hentries].
  destruct (entry_names_head e) as [below Hnames].
  rewrite copy_listing_cons, IH; [|intros; apply Hignored; by right| |done].
  - case_bool_decide as Hin.
    + apply Hignored in Hin; [|by left].
      rewrite Hclean in Hin; [done|]. simpl. rewrite Hnames. by left.
    + simpl. f_equal. apply He. intros n Hn. apply Hclean. simpl.
      rewrite Hnames in Hn |- *. rewrite elem_of_app. left. by right.
  - intros n Hn. apply Hclean. simpl. rewrite elem_of_app. by right.
Qed.

Lemma copy_entry_clean e :
  ∀ parent,
    (∀ n, n ∈ tail (entry_names e) → str_contains "_test" n = false) →
    copy_entry ignore_files parent e = e.
Proof.
  induction e as [n' content | n' entries IH] using Entry_forall_ind;
    intros parent Hclean; [done|].
  simpl. f_equal. apply copy_listing_clean.
  - intros e. apply ignore_files_listing.
  - exact Hclean.
  - eapply Forall_impl; [exact IH|]. intros e He. apply He.
Qed.

(** In the copy no name contains ["_test"], of a file or of a directory,
    empty ones included.  A tree in which no name does is copied as it is:
    the filter drops nothing else and reorders nothing.  So copying a copy
    changes nothing. *)
Theorem copytree_idempotent (src : string) (entries : list Entry) :
  (∀ n, n ∈ names (copytree ignore_files src entries) →
        str_contains "_test" n = false) ∧
  ((∀ n, n ∈ names entries → str_contains "_test" n = false) →
   copytree ignore_files src entries = entries) ∧
  (∀ src', copytree ignore_files src' (copytree ignore_files src entries)
           = copytree ignore_files src entries).
Proof.
  assert (Hnames : ∀ src entries n,
            n ∈ names (copytree ignore_files src entries) →
            str_contains "_test" n = false).
  { intros src0 entries0. unfold copytree. apply names_copy_listing.
    - intros e. apply ignore_files_listing.
    - apply Forall_forall. intros e _. split.
      + apply entry_name_copy_entry.
      + apply names_copy_entry. }
  assert (Hclean : ∀ src entries,
            (∀ n, n ∈ names entries → str_contains "_test" n = false) →
            copytree ignore_files src entries = entries).
  { intros src0 entries0 Hall. unfold copytree. apply copy_listing_clean.
    - intros e. apply ignore_files_listing.
    - exact Hall.
    - apply Forall_forall. intros e _ He. by apply copy_entry_clean. }
  split_and!.
  - apply Hnames.
  - apply Hclean.
  - intros src'. apply Hclean, Hnames.
Qed.

Lemma entry_contents_head e file :
  file ∈ entry_contents e → ∃ rest, file.1 = entry_name e :: rest.
Proof.
  destruct e as [n content | n entries]; simpl.
  - intros ->%list_elem_of_singleton. by exists [].
  - intros (file' & -> & _)%list_elem_of_fmap. by exists file'.1.
Qed.

Lemma filter_clean_entry_contents e :
  List.filter (λ file, clean file.1) (entry_contents e)
  = if str_contains "_test" (entry_name e) then []
    else List.filter (λ file, clean (tail file.1)) (entry_contents e).
Proof.
  assert (Hall : ∀ file, file ∈ entry_contents e →
            clean file.1 = negb (str_contains "_test" (entry_name e))
                           && clean (tail file.1)).
  { intros file [rest Hrest]%entry_contents_head. by rewrite Hrest. }
  induction (entry_contents e) as [|file files IH]; simpl.
  - by destruct (str_contains _ _).
  - rewrite (Hall file) by left. rewrite IH by (intros; apply Hall; by right).
    by destruct (str_contains _ _).
Qed.

Lemma filter_fmap_cons_contents n (files : list (list string * string)) :
  List.filter (λ file, clean (tail file.1))
    ((λ file, (n :: file.1, file.2)) <$> files)
  = (λ file, (n :: file.1, file.2)) <$> List.filter (λ file, clean file.1) files.
Proof.
  induction files as [|file files IH]; [done|].
  rewrite fmap_cons. cbn [List.filter tail fst]. rewrite IH.
  by destruct (clean file.1).
Qed.

Lemma contents_copy_listing copy ignored_names entries :
  (∀ e, e ∈ entries →
     entry_name e ∈ ignored_names
     ↔ str_contains "_test" (entry_name e) = true) →
  Forall (λ e, entry_contents (copy e)
               = List.filter (λ file, clean (tail file.1)) (entry_contents e))
         entries →
  contents (copy_listing copy ignored_names entries)
  = List.filter (λ file, clean file.1) (contents entries).
Proof.
  unfold contents.
  induction entries as [|e entries IH]; intros Hignored Hcopy; [done|].
  apply Forall_cons in Hcopy as [He Hentries].
  rewrite copy_listing_cons, flat_map_app. simpl.
  rewrite List.filter_app, filter_clean_entry_contents.
  rewrite IH; [|intros; apply Hignored; by right|done].
  f_equal. case_bool_decide as Hin.
  - apply Hignored in Hin as ->; [done|by left].
  - destruct (str_contains "_test" (entry_name e)) eqn:Hname.
    + destruct Hin. apply Hignored; [by left|done].
    + simpl. by rewrite app_nil_r.
Qed.

Lemma entry_contents_copy_entry e :
  ∀ parent,
    entry_contents (copy_entry ignore_files parent e)
    = List.filter (λ file, clean (tail file.1)) (entry_contents e).
Proof.
  induction e as [n content | n entries IH] using Entry_forall_ind;
    intros parent; [done|].
  simpl. rewrite filter_fmap_cons_contents. f_equal.
  apply contents_copy_listing.
  - intros e. apply ignore_files_listing.
  - eapply Forall_impl; [exact IH|]. intros e He. apply He.
Qed.

(** A file of the copy has the content of the file it is copied from: the
    files of the copy, with their content, are the files of the source with
    no ["_test"] on their path, with theirs, in the same order. *)
Theorem copytree_keeps_contents (src : string) (entries : list Entry) :
  contents (copytree ignore_files src entries)
  = List.filter (λ file, clean file.1) (contents entries).
Proof.
  unfold copytree. apply contents_copy_listing.
  - intros e. apply ignore_files_listing.
  - apply Forall_forall. intros e _. apply entry_contents_copy_entry.
Qed.

End CopyFacts.

(** ** The copy step on the listing of [root_path] *)

Module CopyStepFacts.
Import PipBuild Trees TreeReading PipBuildFacts.

Lemma outside_build_put_entry build root :
  outside_build (put_entry (Dir build_directory build) root)
  = outside_build root.
Proof.
  unfold outside_build. induction root as [|e root IH]; [done|]. simpl.
  destruct (String.eqb (entry_name e) build_directory) eqn:Heq; simpl.
  - done.
  - by rewrite Heq, IH.
Qed.

Lemma find_entry_outside_build n root :
  n ≠ build_directory →
  find_entry n (outside_build root) = find_entry n root.
Proof.
  intros Hne. unfold find_entry, outside_build.
  induction root as [|e root IH]; [done|]. simpl.
  destruct (String.eqb (entry_name e) build_directory) eqn:Heq; simpl.
  - apply String.eqb_eq in Heq. rewrite Heq.
    by replace (String.eqb build_directory n) with false
      by (symmetry; apply String.eqb_neq; congruence).
  - by rewrite IH.
Qed.

Lemma copy_package_outside_build package root r root' :
  copy_package package root = (r, root') →
  outside_build root' = outside_build root.
Proof.
  unfold copy_package. intros Hcopy.
  destruct (find_entry package root) as [[|n source]|];
    try (by injection Hcopy as <- <-).
  destruct (listing_or_empty build_directory root) as [build|];
    [|by injection Hcopy as <- <-].
  destruct (find_entry package build); injection Hcopy as <- <-; [done|].
  apply outside_build_put_entry.
Qed.

Lemma copy_to_build_outside_build fname root r root' :
  copy_to_build fname root = (r, root') →
  outside_build root' = outside_build root.
Proof.
  unfold copy_to_build. intros Hcopy.
  destruct (find_entry fname root) as [[n content|]|];
    try (by injection Hcopy as <- <-).
  destruct (find_entry build_directory root) as [[|n' build]|];
    try (by injection Hcopy as <- <-).
  destruct (copy_into fname content build); injection Hcopy as <- <-; [|done].
  apply outside_build_put_entry.
Qed.

Lemma mapM_copy_to_build_outside_build fnames root r root' :
  mapM copy_to_build fnames root = (r, root') →
  outside_build root' = outside_build root.
Proof.
  revert root r root'.
  induction fnames as [|fname fnames IH]; intros root r root' Hrun.
  - by injection Hrun as <- <-.
  - simpl in Hrun. rewrite EffectsFacts.M_bind_unfold in Hrun.
    destruct (copy_to_build fname root) as [[[]|e] root1] eqn:Hstep.
    + rewrite EffectsFacts.M_bind_unfold in Hrun.
      apply copy_to_build_outside_build in Hstep. rewrite <- Hstep.
      destruct (mapM copy_to_build fnames root1) as [[l|e] root2] eqn:Hrest;
        injection Hrun as <- <-; by eapply IH.
    + injection Hrun as <- <-. by eapply copy_to_build_outside_build.
Qed.

Lemma copy_source_outside_build package root r root' :
  copy_source_to_build_directory package root = (r, root') →
  outside_build root' = outside_build root.
Proof.
  intros Hrun. unfold copy_source_to_build_directory in Hrun.
  rewrite EffectsFacts.M_bind_unfold in Hrun.
  destruct (copy_package package root) as [[[]|e] root1] eqn:Hcopy.
  - apply copy_package_outside_build in Hcopy. rewrite <- Hcopy.
    rewrite EffectsFacts.M_bind_unfold in Hrun.
    destruct (mapM copy_to_build to_copy root1) as [[l|e] root2] eqn:Hsetup;
      injection Hrun as <- <-; by eapply mapM_copy_to_build_outside_build.
  - injection Hrun as <- <-. by eapply copy_package_outside_build.
Qed.

Lemma copy_source_find_entry package root r root' n :
  copy_source_to_build_directory package root = (r, root') →
  n ≠ build_directory → find_entry n root' = find_entry n root.
Proof.
  intros Hrun Hn.
  by rewrite <- (find_entry_outside_build n root'),
    (copy_source_outside_build _ _ _ _ Hrun), find_entry_outside_build.
Qed.

(** The copy step writes in the build directory only: whether it returns
    or raises, the other entries of [root_path], the package it copies
    among them, are the same entries in the same order afterwards. *)
Theorem copy_writes_in_build_directory_only
    (package : string) (root root' : list Entry) (r : Result unit) :
  copy_source_to_build_directory package root = (r, root') →
  outside_build root' = outside_build root ∧
  ∀ n, n ≠ build_directory → find_entry n root' = find_entry n root.
Proof.
  intros Hrun. split.
  - by eapply copy_source_outside_build.
  - intros n Hn. by eapply copy_source_find_entry.
Qed.

Lemma find_entry_put_build n build root :
  n ≠ build_directory →
  find_entry n (put_entry (Dir build_directory build) root)
  = find_entry n root.
Proof. intros Hn. by apply find_entry_put_entry_ne. Qed.

Lemma copy_to_build_Ok fname root root' :
  copy_to_build fname root = (Ok (), root') →
  ∃ content build build',
    find_entry fname root = Some (File fname content) ∧
    find_entry build_directory root = Some (Dir build_directory build) ∧
    copy_into fname content build = Ok build' ∧
    root' = put_entry (Dir build_directory build') root.
Proof.
  unfold copy_to_build. intros Hcopy.
  destruct (find_entry fname root) as [[n content|]|] eqn:Hfile; try done.
  assert (n = fname) as -> by apply (find_entry_name _ _ _ Hfile).
  destruct (find_entry build_directory root) as [[|n' build]|] eqn:Hbuild;
    try done.
  assert (n' = build_directory) as -> by apply (find_entry_name _ _ _ Hbuild).
  destruct (copy_into fname content build) as [build'|] eqn:Hinto; [|done].
  injection Hcopy as <-. by exists content, build, build'.
Qed.

Lemma build_directory_is_no_setup_file : build_directory ∉ to_copy.
Proof. apply (bool_decide_eq_false_1 _). reflexivity. Qed.

(** When the loop over the setup files returns, each of them is a file of
    [root_path]. *)
Lemma mapM_copy_to_build_Ok fnames root l root' :
  build_directory ∉ fnames →
  mapM copy_to_build fnames root = (Ok l, root') →
  ∀ f, f ∈ fnames → ∃ content, find_entry f root = Some (File f content).
Proof.
  revert root l root'.
  induction fnames as [|fname fnames IH]; intros root l root' Hnot Hrun f Hf;
    [by apply elem_of_nil in Hf|].
  apply not_elem_of_cons in Hnot as [Hne Hnot].
  simpl in Hrun. rewrite EffectsFacts.M_bind_unfold in Hrun.
  destruct (copy_to_build fname root) as [[[]|e] root1] eqn:Hstep; [|done].
  rewrite EffectsFacts.M_bind_unfold in Hrun.
  destruct (mapM copy_to_build fnames root1) as [[l'|e] root2] eqn:Hrest;
    [|done].
  apply copy_to_build_Ok in Hstep
    as (content & build & build' & Hfile & _ & _ & ->).
  apply elem_of_cons in Hf as [->|Hf]; [by exists content|].
  destruct (IH _ _ _ Hnot Hrest f Hf) as [content' Hfound].
  exists content'. rewrite find_entry_put_build in Hfound; [done|].
  intros ->. contradiction.
Qed.

(** The copy step fails without writing anything when the package is not
    in [root_path].  It runs once: after a run that returned, a second
    run finds the copy in the build directory, raises and changes
    nothing. *)
Theorem copy_step_failures (package : string) (root : list Entry) :
  (find_entry package root = None →
   copy_source_to_build_directory package root
   = (Err (OSError "No such file or directory"), root)) ∧
  (∀ root',
     package ∉ to_copy → package ≠ build_directory →
     copy_source_to_build_directory package root = (Ok (), root') →
     copy_source_to_build_directory package root'
     = (Err (OSError "File exists"), root')).
Proof.
  split.
  - intros Hmissing. unfold copy_source_to_build_directory.
    rewrite EffectsFacts.M_bind_unfold. unfold copy_package.
    by rewrite Hmissing.
  - intros root' Hpackage Hne Hrun.
    assert (Hframe := λ n, copy_source_find_entry _ _ _ _ n Hrun).
    unfold copy_source_to_build_directory in Hrun.
    rewrite EffectsFacts.M_bind_unfold in Hrun.
    destruct (copy_package package root) as [[[]|e] root1] eqn:Hcopy; [|done].
    apply copy_package_holds_copy in Hcopy as (source & Hsource & Hroot1).
    rewrite EffectsFacts.M_bind_unfold in Hrun.
    destruct (mapM copy_to_build to_copy root1) as [[l|e] root2] eqn:Hsetup;
      [|done].
    injection Hrun as <-.
    destruct (mapM_copy_to_build_holds_copy _ _ _ _ _ _ Hpackage Hsetup
                Hroot1) as (build & Hbuild & Hcopied).
    unfold copy_source_to_build_directory.
    rewrite EffectsFacts.M_bind_unfold. unfold copy_package.
    rewrite (Hframe package Hne), Hsource.
    unfold listing_or_empty. by rewrite Hbuild, Hcopied.
Qed.

(** The copy step is not all or nothing: the package is copied before the
    setup files are looked at, so when one of them is missing the step
    raises with the copy of the package already in the build directory. *)
Theorem copy_step_is_not_atomic
    (package fname : string) (root root1 : list Entry) :
  copy_package package root = (Ok (), root1) →
  package ∉ to_copy →
  fname ∈ to_copy →
  find_entry fname root = None →
  ∃ e root' source,
    find_entry package root = Some (Dir package source) ∧
    copy_source_to_build_directory package root = (Err e, root') ∧
    holds_copy package (copytree ignore_files package source) root'.
Proof.
  intros Hcopy Hpackage Hfname Hmissing.
  pose proof (copy_package_holds_copy _ _ _ Hcopy)
    as (source & Hsource & Hroot1).
  assert (Hmissing1 : find_entry fname root1 = None).
  { unfold copy_package in Hcopy. rewrite Hsource in Hcopy.
    destruct (listing_or_empty build_directory root) as [build|]; [|done].
    destruct (find_entry package build); [done|]. injection Hcopy as <-.
    rewrite find_entry_put_build; [done|]. intros ->.
    by apply build_directory_is_no_setup_file. }
  destruct (mapM copy_to_build to_copy root1) as [[l|e] root2] eqn:Hsetup.
  - destruct (mapM_copy_to_build_Ok _ _ _ _ build_directory_is_no_setup_file
                Hsetup fname Hfname) as [content Hfound]. congruence.
  - exists e, root2, source. split_and!; [done| |].
    + unfold copy_source_to_build_directory.
      rewrite EffectsFacts.M_bind_unfold, Hcopy.
      by rewrite EffectsFacts.M_bind_unfold, Hsetup.
    + by eapply mapM_copy_to_build_holds_copy.
Qed.

Lemma copy_into_file fname content build build' :
  no_directory fname build →
  copy_into fname content build = Ok build' →
  build' = put_entry (File fname content) build.
Proof.
  unfold no_directory, copy_into. intros Hno.
  destruct (find_entry fname build) as [[|n inner]|] eqn:Hfound;
    try (by intros [= <-]).
  by destruct (Hno n inner).
Qed.

(** The loop over the setup files, on a build directory in which none of
    them is a directory: each is written with the content it has in
    [root_path], and the other entries of the build directory stay. *)
Lemma mapM_copy_to_build_files fnames :
  NoDup fnames → build_directory ∉ fnames →
  ∀ root l root' build,
    mapM copy_to_build fnames root = (Ok l, root') →
    find_entry build_directory root = Some (Dir build_directory build) →
    (∀ f, f ∈ fnames → no_directory f build) →
    ∃ build',
      find_entry build_directory root' = Some (Dir build_directory build') ∧
      (∀ f, f ∈ fnames →
         ∃ content, find_entry f root = Some (File f content) ∧
                    find_entry f build' = Some (File f content)) ∧
      (∀ g, g ∉ fnames → find_entry g build' = find_entry g build).
Proof.
  induction fnames as [|fname fnames IH];
    intros Hnodup Hnot root l root' build Hrun Hbuild Hfiles.
  - injection Hrun as <- <-. exists build. split_and!; [done| |done].
    by intros f ?%elem_of_nil.
  - apply NoDup_cons in Hnodup as [Hfresh Hnodup].
    apply not_elem_of_cons in Hnot as [Hne Hnot].
    simpl in Hrun. rewrite EffectsFacts.M_bind_unfold in Hrun.
    destruct (copy_to_build fname root) as [[[]|e] root1] eqn:Hstep; [|done].
    rewrite EffectsFacts.M_bind_unfold in Hrun.
    destruct (mapM copy_to_build fnames root1) as [[l'|e] root2] eqn:Hrest;
      [|done].
    injection Hrun as <- <-.
    apply copy_to_build_Ok in Hstep
      as (content & build0 & build1 & Hfile & Hbuild0 & Hinto & ->).
    rewrite Hbuild in Hbuild0. injection Hbuild0 as <-.
    apply copy_into_file in Hinto as ->; [|apply Hfiles; by left].
    destruct (IH Hnodup Hnot _ _ _ (put_entry (File fname content) build)
                Hrest) as (build' & Hbuild' & Hwritten & Hkept).
    { apply (find_entry_put_entry_eq (Dir build_directory _)). }
    { intros f Hf n inner.
      rewrite (find_entry_put_entry_ne f (File fname content));
        [apply Hfiles; by right|].
      simpl. intros ->. contradiction. }
    exists build'. split_and!; [done| |].
    + intros f [->|Hf]%elem_of_cons.
      * exists content. split; [done|]. rewrite (Hkept fname Hfresh).
        apply (find_entry_put_entry_eq (File fname content)).
      * destruct (Hwritten f Hf) as (content' & Hroot & Hbuilt).
        exists content'. split; [|done].
        rewrite find_entry_put_build in Hroot; [done|].
        intros ->. contradiction.
    + intros g [Hg1 Hg2]%not_elem_of_cons. rewrite (Hkept g Hg2).
      by apply (find_entry_put_entry_ne g (File fname content)).
Qed.

Lemma to_copy_NoDup : NoDup to_copy.
Proof. apply (bool_decide_eq_true_1 _). reflexivity. Qed.

(** After a copy step that returned, [setup.py], [setup.cfg] and
    [README.md] are files of the build directory with the content they
    have in [root_path], next to the copy of the package, provided the
    build directory had no directory of one of these names before. *)
Theorem setup_files_are_copied (package : string) (root root' : list Entry) :
  package ∉ to_copy →
  (∀ build, listing_or_empty build_directory root = Ok build →
            ∀ f, f ∈ to_copy → no_directory f build) →
  copy_source_to_build_directory package root = (Ok (), root') →
  ∃ build',
    find_entry build_directory root' = Some (Dir build_directory build') ∧
    (∃ copied, find_entry package build' = Some (Dir package copied)) ∧
    ∀ f, f ∈ to_copy →
      ∃ content, find_entry f root = Some (File f content) ∧
                 find_entry f build' = Some (File f content).
Proof.
  intros Hpackage Hfresh Hrun.
  unfold copy_source_to_build_directory in Hrun.
  rewrite EffectsFacts.M_bind_unfold in Hrun.
  destruct (copy_package package root) as [[[]|e] root1] eqn:Hcopy; [|done].
  rewrite EffectsFacts.M_bind_unfold in Hrun.
  destruct (mapM copy_to_build to_copy root1) as [[l|e] root2] eqn:Hsetup;
    [|done].
  injection Hrun as <-.
  pose proof (copy_package_holds_copy _ _ _ Hcopy)
    as (source & Hsource & Hroot1).
  unfold copy_package in Hcopy. rewrite Hsource in Hcopy.
  destruct (listing_or_empty build_directory root) as [build|] eqn:Hbuild;
    [|done].
  destruct (find_entry package build); [done|]. injection Hcopy as <-.
  destruct (mapM_copy_to_build_files to_copy to_copy_NoDup
              build_directory_is_no_setup_file _ _ _
              (put_entry (Dir package (copytree ignore_files package source))
                 build) Hsetup)
    as (build' & Hbuild' & Hwritten & Hkept).
  { apply (find_entry_put_entry_eq (Dir build_directory _)). }
  { intros f Hf n inner.
    rewrite (find_entry_put_entry_ne f (Dir package _));
      [by apply (Hfresh build eq_refl)|].
    simpl. intros ->. contradiction. }
  exists build'. split_and!; [done| |].
  - eexists. rewrite (Hkept package Hpackage).
    apply (find_entry_put_entry_eq (Dir package _)).
  - intros f Hf. destruct (Hwritten f Hf) as (content & Hroot & Hbuilt).
    exists content. split; [|done].
    rewrite find_entry_put_build in Hroot; [done|].
    intros ->. by apply build_directory_is_no_setup_file.
Qed.

End CopyStepFacts.

(** ** [update_version] *)

Module VersionFacts.
Import PipBuild PipBuildVersion VersionReading PipBuildFacts.

Lemma prefix_single c c' rest :
  String.prefix (String c "") (String c' rest)
  = if Ascii.ascii_dec c c' then true else false.
Proof. simpl. destruct (Ascii.ascii_dec c c'); [by destruct rest|done]. Qed.

Lemma replace_from_single c new s :
  replace_from (String c "") new 0 s
  = match s with
    | EmptyString => EmptyString
    | String c' rest =>
        if Ascii.ascii_dec c c'
        then new +:+ replace_from (String c "") new 0 rest
        else String c' (replace_from (String c "") new 0 rest)
    end.
Proof.
  destruct s as [|c' rest]; [done|].
  cbn [replace_from]. rewrite prefix_single.
  by destruct (Ascii.ascii_dec c c').
Qed.

Lemma append_single c rest : String c "" +:+ rest = String c rest.
Proof. reflexivity. Qed.

Lemma str_contains_cons needle c rest :
  str_contains needle (String c rest)
  = String.prefix needle (String c rest) || str_contains needle rest.
Proof. reflexivity. Qed.

Lemma underscores_replaced s :
  str_contains "_" (str_replace "_" "-" s) = false ∧
  String.length (str_replace "_" "-" s) = String.length s.
Proof.
  unfold str_replace.
  induction s as [|c s [IHcontains IHlength]]; [done|].
  rewrite replace_from_single.
  destruct (Ascii.ascii_dec _ c) as [<-|Hne].
  - rewrite append_single, str_contains_cons, prefix_single, IHcontains.
    simpl. by rewrite IHlength.
  - rewrite str_contains_cons, prefix_single, IHcontains.
    match goal with
    | |- context [Ascii.ascii_dec ?a c] =>
        destruct (Ascii.ascii_dec a c); [done|]
    end.
    simpl. by rewrite IHlength.
Qed.

Lemma append_assoc (a b c : string) : (a +:+ b) +:+ c = a +:+ (b +:+ c).
Proof.
  induction a as [|x a IH]; [done|].
  change (String x ((a +:+ b) +:+ c) = String x (a +:+ (b +:+ c))).
  by rewrite IH.
Qed.

Lemma str_contains_app_r needle s suffix :
  str_contains needle s = true → str_contains needle (s +:+ suffix) = true.
Proof.
  rewrite !str_contains_spec. intros (before & after & ->).
  exists before, (after +:+ suffix). by rewrite !append_assoc.
Qed.

(** The name a regular build exports has every underscore of the package
    name turned into a hyphen and nothing else changed in length; the name
    a nightly build exports is the package name as it is, underscores
    included, followed by [-nightly]. *)
Theorem package_name_underscores (package : string) :
  str_contains "_" (package_name package false) = false ∧
  String.length (package_name package false) = String.length package ∧
  package_name package true = package +:+ "-nightly" ∧
  (str_contains "_" package = true →
   str_contains "_" (package_name package true) = true).
Proof.
  unfold package_name.
  destruct (underscores_replaced package) as [Hcontains Hlength].
  split_and!; try done. apply str_contains_app_r.
Qed.



(** Writing an entry leaves the entries of other names where they are. *)
Lemma filter_put_entry (keep : string → bool) e entries :
  keep (entry_name e) = false →
  List.filter (λ x, keep (entry_name x)) (put_entry e entries)
  = List.filter (λ x, keep (entry_name x)) entries.
Proof.
  intros Hkeep. induction entries as [|e' entries IH]; simpl.
  - by rewrite Hkeep.
  - destruct (String.eqb (entry_name e') (entry_name e)) eqn:Heq; simpl.
    + apply String.eqb_eq in Heq. by rewrite Heq, Hkeep.
    + by rewrite IH.
Qed.

Section UpdateVersion.
Variable now : string.
Variable re_sub : string → string → string → string.

Lemma update_version_utils_outside package version is_nightly build r build' :
  update_version_utils now re_sub package version is_nightly build
  = (r, build') →
  outside_version package build' = outside_version package build ∧
  read_file "setup.py" build' = read_file "setup.py" build.
Proof.
  unfold update_version_utils. intros Hrun.
  destruct (find_entry package build) as [[|package_dir in_package]|]
    eqn:Hpackage; try (by injection Hrun as <- <-).
  assert (package_dir = package) as ->
    by apply (find_entry_name _ _ _ Hpackage).
  destruct (find_entry "src" in_package) as [[|src_dir in_src]|];
    try (by injection Hrun as <- <-).
  destruct (find_entry "version_utils.py" in_src) as [[|]|];
    injection Hrun as <- <-; try done.
  split.
  - apply (filter_put_entry (other_than package)). unfold other_than. simpl.
    by rewrite String.eqb_refl, andb_false_r.
  - unfold read_file. destruct (decide (package = "setup.py")) as [->|Hne].
    + by rewrite (find_entry_put_entry_eq (Dir "setup.py" _)), Hpackage.
    + by rewrite find_entry_put_entry_ne.
Qed.

(** [update_version] rewrites [setup.py] and, inside the directory of the
    package, [src/version_utils.py]; the other entries of [build_path] are
    the same afterwards, whether it returns or raises.  When [setup.py]
    cannot be read it raises before it writes anything. *)
Theorem update_version_writes
    (package version : string) (is_nightly : bool)
    (build build' : list Entry) (r : Result unit) :
  update_version now re_sub package version is_nightly build = (r, build') →
  outside_version package build' = outside_version package build ∧
  (∀ e, read_file "setup.py" build = Err e → r = Err e ∧ build' = build).
Proof.
  unfold update_version. rewrite EffectsFacts.M_bind_unfold.
  unfold reading at 1.
  destruct (read_file "setup.py" build) as [setup_contents|e] eqn:Hread.
  - rewrite EffectsFacts.M_bind_unfold. unfold writing at 1. intros Hrun.
    split; [|done].
    apply update_version_utils_outside in Hrun as [-> _].
    apply (filter_put_entry (other_than package)). unfold other_than.
    done.
  - intros [= <- <-]. split; [done|]. by intros e' [= <-].
Qed.


End UpdateVersion.

End VersionFacts.

(** ** The properties above at concrete inputs *)

Module MoreWitnesses.
Import BertModels Configs Graph GraphReading KerasWorld Recording.
Import PipBuild PipBuildVersion Trees TreeReading VersionReading MoreExamples.

(** The call of [BertTest.setUp] is accepted, so its [num_layers] is an
    integer. *)
Lemma new_accepts_witness :
  ∃ n, test_kwargs !! "num_layers" = Some n ∧ is_integer n = true.
Proof.
  destruct (ConstructionFacts.new_accepts test_kwargs) as [Haccepts _].
  apply Haccepts. reflexivity.
Defined.

(** The model of the tests, named ["encoder"], comes back without its
    name. *)
Lemma get_config_rebuilds_graph_witness :
  ∃ model model',
    __init__ (VInt 1000) (VInt 2) (VInt 2) (VInt 64) (VInt 128) (VFloat 0.1)
      (VInt 128) (VInt 2) (VStr "encoder") (VBool true) = Ok model ∧
    from_config example_configs
      (ConfigDict (delete "cls_token_index" (get_config model)))
    = Ok model' ∧
    outputs model' = outputs model ∧ name model' = VNone.
Proof.
  destruct (BertFacts.init_returns (VInt 1000) 2 (VInt 2) (VInt 64)
              (VInt 128) (VFloat 0.1) (VInt 128) (VInt 2) (VStr "encoder")
              (VBool true)) as [model Hmodel].
  destruct (GraphExtras.get_config_rebuilds_graph example_configs _ _ _ _ _
              _ _ _ _ _ model Hmodel)
    as (_ & _ & model' & Hmodel' & _ & Houtputs & _ & Hname & _).
  exists model, model'. repeat split; assumption.
Defined.

Lemma no_encoder_blocks_witness :
  ∃ model,
    __init__ (VInt 1000) (VInt 0) (VInt 2) (VInt 64) (VInt 128) (VFloat 0.1)
      (VInt 128) (VInt 2) (VStr "encoder") (VBool true) = Ok model ∧
    outputs model !! "sequence_output"
    = Some (embedding_output (VInt 1000) (VInt 64) (VFloat 0.1) (VInt 128)
              (VInt 2)).
Proof.
  destruct (GraphExtras.no_encoder_blocks (VInt 1000) (VInt 2) (VInt 64)
              (VInt 128) (VFloat 0.1) (VInt 128) (VInt 2) (VStr "encoder")
              (VBool true) 0) as (model & Hmodel & Hseq & _); [lia|].
  exists model. split; assumption.
Defined.


(** A name that is in no table. *)
Lemma from_preset_steps_witness :
  from_preset example_configs example_urls example_hashes
    (keras_get_file example_hash) keras_Model_load_weights
    "bert_base_clowntown" example_state
  = (Err (KeyError "bert_base_clowntown"), example_state).
Proof.
  destruct (PresetFacts.from_preset_steps example_configs example_urls
              example_hashes (keras_get_file example_hash)
              keras_Model_load_weights "bert_base_clowntown" example_state)
    as (Hmissing & _).
  apply Hmissing. reflexivity.
Defined.


Lemma ignore_files_spec_witness :
  "bert_test.py" ∈ ignore_files "models" ["bert"; "bert_test.py"].
Proof.
  destruct (CopyFacts.ignore_files_spec "models" ["bert"; "bert_test.py"])
    as (Hin & _).
  apply Hin. split.
  - apply (bool_decide_eq_true_1 _). reflexivity.
  - by exists "bert", ".py".
Defined.

(** Copying the package of the example checkout a second time gives the
    same tree. *)
Lemma copytree_idempotent_witness :
  copytree ignore_files "build" (copytree ignore_files "root" example_root)
  = copytree ignore_files "root" example_root.
Proof.
  destruct (CopyFacts.copytree_idempotent "root" example_root)
    as (_ & _ & Hagain).
  apply Hagain.
Defined.

Lemma example_copy_step :
  ∃ root', copy_source_to_build_directory nlp_package example_root
           = (Ok (), root').
Proof. eexists. vm_compute. reflexivity. Qed.

(** The package of the example checkout is where it was after the copy. *)
Lemma copy_writes_in_build_directory_only_witness :
  ∃ root',
    copy_source_to_build_directory nlp_package example_root = (Ok (), root') ∧
    find_entry nlp_package root' = find_entry nlp_package example_root.
Proof.
  destruct example_copy_step as [root' Hrun].
  destruct (CopyStepFacts.copy_writes_in_build_directory_only _ _ _ _ Hrun)
    as [_ Hframe].
  exists root'. split; [assumption|]. apply Hframe. discriminate.
Defined.

Lemma copy_step_failures_witness :
  ∃ root',
    copy_source_to_build_directory nlp_package example_root = (Ok (), root') ∧
    copy_source_to_build_directory nlp_package root'
    = (Err (OSError "File exists"), root').
Proof.
  destruct example_copy_step as [root' Hrun].
  destruct (CopyStepFacts.copy_step_failures nlp_package example_root)
    as [_ Hagain].
  exists root'. split; [assumption|].
  apply Hagain; [|discriminate|assumption].
  apply PipBuildWitness.example_root_package_not_copied.
Defined.

Lemma copy_package_without_readme :
  ∃ root1, copy_package nlp_package root_without_readme = (Ok (), root1).
Proof. eexists. vm_compute. reflexivity. Qed.

(** Without [README.md] the step raises, with the package copied. *)
Lemma copy_step_is_not_atomic_witness :
  ∃ e root' source,
    find_entry nlp_package root_without_readme
    = Some (Dir nlp_package source) ∧
    copy_source_to_build_directory nlp_package root_without_readme
    = (Err e, root') ∧
    holds_copy nlp_package (copytree ignore_files nlp_package source) root'.
Proof.
  destruct copy_package_without_readme as [root1 Hcopy].
  apply (CopyStepFacts.copy_step_is_not_atomic nlp_package "README.md"
           root_without_readme root1 Hcopy).
  - apply PipBuildWitness.example_root_package_not_copied.
  - apply (bool_decide_eq_true_1 _). reflexivity.
  - reflexivity.
Defined.

Lemma example_build_directory_is_empty build :
  listing_or_empty build_directory example_root = Ok build → build = [].
Proof. intros Hbuild. vm_compute in Hbuild. by injection Hbuild. Qed.

Lemma setup_files_are_copied_witness :
  ∃ root' build',
    copy_source_to_build_directory nlp_package example_root = (Ok (), root') ∧
    find_entry build_directory root' = Some (Dir build_directory build') ∧
    find_entry "setup.py" build' = Some (File "setup.py" "...").
Proof.
  destruct example_copy_step as [root' Hrun].
  destruct (CopyStepFacts.setup_files_are_copied nlp_package example_root
              root') as (build' & Hbuild' & _ & Hfiles).
  - apply PipBuildWitness.example_root_package_not_copied.
  - intros build ->%example_build_directory_is_empty f _ n inner.
    discriminate.
  - assumption.
  - destruct (Hfiles "setup.py") as (content & Hroot & Hbuilt).
    + apply (bool_decide_eq_true_1 _). reflexivity.
    + injection Hroot as <-. exists root', build'.
      split; [assumption|]. split; assumption.
Defined.

Lemma package_name_underscores_witness :
  str_contains "_" (package_name hub_package true) = true.
Proof.
  destruct (VersionFacts.package_name_underscores hub_package)
    as (_ & _ & _ & Hnightly).
  apply Hnightly. reflexivity.
Defined.

Lemma example_update_version :
  ∃ build', update_version "2024010112" no_sub hub_package "0.1.0" true
              example_build = (Ok (), build').
Proof. eexists. vm_compute. reflexivity. Qed.

(** [README.md] is not touched. *)
Lemma update_version_writes_witness :
  ∃ build',
    update_version "2024010112" no_sub hub_package "0.1.0" true example_build
    = (Ok (), build') ∧
    outside_version hub_package build' = [File "README.md" "..."].
Proof.
  destruct example_update_version as [build' Hrun].
  destruct (VersionFacts.update_version_writes _ _ _ _ _ _ _ _ Hrun)
    as [Houtside _].
  exists build'. split; [assumption|]. rewrite Houtside. reflexivity.
Defined.



End MoreWitnesses.
